(** * smarttub: a shallow embedding of [smarttub/__init__.py]

    The module is a thin client of the SmartTub REST API.  Its objects
    ([SmartTub], [Account], [Spa], [SpaPump], [SpaLight], [SpaReminder]) are
    Python instances that share one mutable [SmartTub] client; every method
    either fails with a Python exception or performs HTTP calls through
    [requests].  The embedding keeps that shape:

    - objects live in a heap and are attribute dictionaries, looked up by
      name first on the instance and then on the class, as Python does;
    - a computation threads the heap and the log of HTTP calls and ends
      either with a value or with a raised exception; what was done before
      the exception stays done;
    - the network, the clock and [jwt.decode] are the environment;
    - the [logger.debug] lines are left out: they format values that are
      already there and change nothing the methods return or send. *)

From Stdlib Require Import ZArith String Ascii List Bool Lia Floats DecimalString.
From stdpp Require Import base list.
Import ListNotations.
Local Open Scope string_scope.
Local Open Scope Z_scope.
Set Warnings "-register-all".

(** ** Values *)

(** Decoded JSON, as [r.json()] returns it: [dict]s keep their insertion
    order and have [str] keys. *)
Inductive json : Type :=
| JNull
| JBool (b : bool)
| JInt (z : Z)
| JFloat (f : float)
| JStr (s : string)
| JList (l : list json)
| JDict (d : list (string * json)).

(** Objects are named by their place in the heap. *)
Abbreviation loc := nat (only parsing).

(** What an attribute can hold: JSON data, one of the [set] constants of the
    class bodies, or a reference to another object. *)
Inductive pyval : Type :=
| PJson (j : json)
| PSet (l : list string)
| PRef (l : loc).

Coercion PJson : json >-> pyval.

Inductive class := CSmartTub | CAccount | CSpa | CSpaPump | CSpaLight | CSpaReminder.

Definition class_name (c : class) : string :=
  match c with
  | CSmartTub => "SmartTub"
  | CAccount => "Account"
  | CSpa => "Spa"
  | CSpaPump => "SpaPump"
  | CSpaLight => "SpaLight"
  | CSpaReminder => "SpaReminder"
  end.

(** The exceptions the module can end with.  [RuntimeError] is raised by
    [_require_login], [AssertionError] by the [assert] statements that
    validate arguments, [HTTPError] by [raise_for_status] (it carries the
    response); the others come from the interpreter ([AttributeError],
    [KeyError], [TypeError], [OverflowError]) or from the libraries
    ([DecodeError] from [jwt.decode], [JSONDecodeError] from [r.json()],
    [ValueError] from [dateutil.parser.isoparse], for one).
    The module defines no exception class of its own: where its
    specification speaks of a not-authenticated, an invalid-argument, an
    authentication or an API error, the source raises [RuntimeError],
    [AssertionError] and, for the last two, [HTTPError].
    [InvalidRef] is not a Python exception: it is what the model answers for
    a reference to no object, which no constructor produces. *)
Inductive exn :=
| RuntimeError (msg : string)
| AssertionError
| AttributeError (cls : string) (name : string)
| KeyError (key : string)
| TypeError
| OverflowError
| DecodeError
| JSONDecodeError
| ValueError
| HTTPError (status : Z) (body : option json)
| InvalidRef.

(** How a computation ends. *)
Inductive result (A : Type) :=
| Ok (a : A)
| Raise (e : exn).
Arguments Ok {A} a.
Arguments Raise {A} e.

(** ** Objects and the heap *)

Definition dict (V : Type) := list (string * V).

Fixpoint dict_get {V} (d : dict V) (k : string) : option V :=
  match d with
  | [] => None
  | (k', v) :: d' => if String.eqb k' k then Some v else dict_get d' k
  end.

(** [d[k] = v]: an existing key keeps its place, a new one goes last. *)
Fixpoint dict_set {V} (d : dict V) (k : string) (v : V) : dict V :=
  match d with
  | [] => [(k, v)]
  | (k', v') :: d' =>
      if String.eqb k' k then (k', v) :: d' else (k', v') :: dict_set d' k v
  end.

Record object := { cls : class; attrs : dict pyval }.

(** Names bound to data in the class bodies.  The method names ([login],
    [request], [set], [toggle], ...) are class attributes too; no attribute
    the methods read as data has the name of a method. *)
Definition class_attrs (c : class) : dict pyval :=
  match c with
  | CSmartTub =>
      [ ("AUTH_AUDIENCE", PJson (JStr "https://api.operation-link.com/"));
        ("AUTH_URL", PJson (JStr "https://smarttub.auth0.com/oauth/token"));
        ("AUTH_CLIENT_ID", PJson (JStr "dB7Rcp3rfKKh0vHw2uqkwOZmRb5WNjQC"));
        ("AUTH_REALM", PJson (JStr "Username-Password-Authentication"));
        ("AUTH_ACCOUNT_ID_KEY", PJson (JStr "http://operation-link.com/account_id"));
        ("API_BASE", PJson (JStr "https://api.smarttub.io"));
        ("API_KEY", PJson (JStr "TfXKgnYbv81lRdJBQcmGH6lWuA2V6oJp7xPlQRTz")) ]
  | CSpa =>
      [ ("SECONDARY_FILTRATION_MODES", PSet ["FREQUENT"; "INFREQUENT"; "AWAY"]);
        ("HEAT_MODES", PSet ["ECONOMY"; "DAY"; "AUTO"]);
        ("LIGHT_MODES",
          PSet ["PURPLE"; "ORANGE"; "RED"; "YELLOW"; "GREEN"; "AQUA"; "BLUE";
                "HIGH_SPEED_WHEEL"; "OFF"]);
        ("TEMPERATURE_FORMATS", PJson (JList [JStr "FAHRENHEIT"; JStr "CELSIUS"]));
        ("ENERGY_USAGE_INTERVALS", PJson (JList [JStr "DAY"; JStr "MONTH"])) ]
  | CAccount | CSpaPump | CSpaLight | CSpaReminder => []
  end.

(** Attribute lookup on an instance: its own dictionary, then its class. *)
Definition find_attr (o : object) (name : string) : option pyval :=
  match dict_get (attrs o) name with
  | Some v => Some v
  | None => dict_get (class_attrs (cls o)) name
  end.

(** ** The environment and the state *)

Record http_request := {
  req_method : string;
  req_url : string;
  req_headers : dict string;
  req_json : json
}.

(** [resp_body] is [None] when the response body is not JSON. *)
Record http_response := { status_code : Z; resp_body : option json }.

(** What the code cannot see into: the servers (their answer may depend on
    every call made so far), [jwt.decode(token, verify=False)], the clock,
    [dateutil.parser.isoparse], and the text [str()] gives for the values
    whose text is the interpreter's business (the shortest round-trip digits
    of a float, the [repr] of a [str] with a character beyond ASCII, which
    goes by the interpreter's Unicode tables, the hash order of a set, the
    default text of an object). *)
Record world := {
  server : list http_request -> http_request -> http_response;
  jwt_decode : string -> option json;
  clock : float;
  float_repr : float -> string;
  unicode_repr : string -> string;
  opaque_str : pyval -> string;
  isoparse : json -> result pyval
}.

Record state := { heap : list object; trace : list http_request }.

Definition M (A : Type) : Type := world -> state -> result A * state.

Definition ret {A} (a : A) : M A := fun _ st => (Ok a, st).

Definition raise {A} (e : exn) : M A := fun _ st => (Raise e, st).

Definition bind {A B} (m : M A) (k : A -> M B) : M B :=
  fun w st =>
    match m w st with
    | (Ok a, st') => k a w st'
    | (Raise e, st') => (Raise e, st')
    end.

Declare Scope py_scope.
Delimit Scope py_scope with py.
Notation "x <- c1 ;; c2" := (bind c1 (fun x => c2))
  (at level 100, c1 at next level, right associativity) : py_scope.
Notation "c1 ;; c2" := (bind c1 (fun _ => c2))
  (at level 100, right associativity) : py_scope.
Local Open Scope py_scope.

Definition lift {A} (r : result A) : M A := fun _ st => (r, st).

(** A [for] loop that appends one result per element. *)
Fixpoint for_each {A B} (f : A -> M B) (l : list A) : M (list B) :=
  match l with
  | [] => ret []
  | x :: l' => y <- f x ;; ys <- for_each f l' ;; ret (y :: ys)
  end.

(** ** Text: [str()], [repr()] and f-strings *)

Definition dquote : ascii := ascii_of_nat 34.
Definition squote : ascii := ascii_of_nat 39.
Definition backslash : ascii := ascii_of_nat 92.

Definition str1 (c : ascii) : string := String c EmptyString.

Fixpoint contains_char (c : ascii) (s : string) : bool :=
  match s with
  | EmptyString => false
  | String c' s' => Ascii.eqb c c' || contains_char c s'
  end.

Definition hex_digit (n : nat) : ascii :=
  ascii_of_nat (if Nat.ltb n 10 then 48 + n else 87 + n).

(** One character of [repr(s)], [q] being the quote chosen for [s].  In
    ASCII the backslash and the quote are escaped, tab, newline and carriage
    return have their letter, the other control characters are written
    [\xhh], and the printable ones stand for themselves.  Beyond ASCII,
    whether a character is kept or escaped goes by the Unicode tables of the
    interpreter: there is no answer here. *)
Definition repr_char (q : ascii) (c : ascii) : option string :=
  let n := nat_of_ascii c in
  if Nat.leb 128 n then None
  else if Ascii.eqb c backslash then Some (String backslash (str1 backslash))
  else if Ascii.eqb c q then Some (String backslash (str1 q))
  else if Nat.eqb n 9 then Some (String backslash "t")
  else if Nat.eqb n 10 then Some (String backslash "n")
  else if Nat.eqb n 13 then Some (String backslash "r")
  else if Nat.ltb n 32 || Nat.eqb n 127 then
    Some (String backslash
            (String "x" (String (hex_digit (Nat.div n 16)) (str1 (hex_digit (Nat.modulo n 16))))))
  else Some (str1 c).

Fixpoint repr_chars (q : ascii) (s : string) : option string :=
  match s with
  | EmptyString => Some EmptyString
  | String c s' =>
      match repr_char q c, repr_chars q s' with
      | Some t, Some t' => Some (t ++ t')
      | _, _ => None
      end
  end.

(** [repr] of a [str]: single quotes, unless the text has a single quote
    and no double quote.  The [repr] of text with a character beyond ASCII
    is [ur]'s. *)
Definition str_repr (ur : string -> string) (s : string) : string :=
  let q := if contains_char squote s && negb (contains_char dquote s)
           then dquote else squote in
  match repr_chars q s with
  | Some t => String q (t ++ str1 q)
  | None => ur s
  end.

Fixpoint join (sep : string) (l : list string) : string :=
  match l with
  | [] => EmptyString
  | [x] => x
  | x :: l' => x ++ sep ++ join sep l'
  end.

Definition int_str (z : Z) : string := NilZero.string_of_int (Z.to_int z).

Fixpoint json_repr (fr : float -> string) (ur : string -> string) (j : json) : string :=
  match j with
  | JNull => "None"
  | JBool true => "True"
  | JBool false => "False"
  | JInt z => int_str z
  | JFloat f => fr f
  | JStr s => str_repr ur s
  | JList l => "[" ++ join ", " (map (json_repr fr ur) l) ++ "]"
  | JDict d =>
      "{" ++ join ", " (map (fun kv => match kv with
                                       | (k, v) => str_repr ur k ++ ": " ++ json_repr fr ur v
                                       end) d) ++ "}"
  end.

(** [str(v)], which is what an f-string puts in place of [{v}]. *)
Definition py_str (w : world) (v : pyval) : string :=
  match v with
  | PJson (JStr s) => s
  | PJson j => json_repr (float_repr w) (unicode_repr w) j
  | PSet _ | PRef _ => opaque_str w v
  end.

Definition fmt (v : pyval) : M string := fun w st => (Ok (py_str w v), st).

(** ** Operators *)

(** [v == s] for a [str] literal [s]; no class of the module defines
    [__eq__]. *)
Definition py_eq_str (v : pyval) (s : string) : bool :=
  match v with
  | PJson (JStr s') => String.eqb s' s
  | _ => false
  end.

Fixpoint is_prefix (p s : string) : bool :=
  match p, s with
  | EmptyString, _ => true
  | String a p', String b s' => Ascii.eqb a b && is_prefix p' s'
  | String _ _, EmptyString => false
  end.

Fixpoint is_substring (p s : string) : bool :=
  is_prefix p s ||
  match s with
  | EmptyString => false
  | String _ s' => is_substring p s'
  end.

(** [s in container] for a [str] [s]. *)
Definition py_in (s : string) (container : pyval) : result bool :=
  match container with
  | PSet l => Ok (existsb (String.eqb s) l)
  | PJson (JList l) => Ok (existsb (fun x => py_eq_str (PJson x) s) l)
  | PJson (JDict d) => Ok (existsb (fun kv => String.eqb (fst kv) s) d)
  | PJson (JStr t) => Ok (is_substring s t)
  | _ => Raise TypeError
  end.

(** Truth value, for [if not self.logged_in]. *)
Definition py_truthy (v : pyval) : bool :=
  match v with
  | PJson JNull => false
  | PJson (JBool b) => b
  | PJson (JInt z) => negb (z =? 0)
  | PJson (JFloat f) => negb (PrimFloat.eqb f 0%float)
  | PJson (JStr s) => negb (String.eqb s EmptyString)
  | PJson (JList l) => negb (Nat.eqb (length l) 0)
  | PJson (JDict d) => negb (Nat.eqb (length d) 0)
  | PSet l => negb (Nat.eqb (length l) 0)
  | PRef _ => true
  end.

(** [v[k]] for a [str] key. *)
Definition py_getitem (v : pyval) (k : string) : result json :=
  match v with
  | PJson (JDict d) =>
      match dict_get d k with
      | Some x => Ok x
      | None => Raise (KeyError k)
      end
  | _ => Raise TypeError
  end.

Definition getitem (v : pyval) (k : string) : M json := lift (py_getitem v k).

Fixpoint chars (s : string) : list json :=
  match s with
  | EmptyString => []
  | String c s' => JStr (str1 c) :: chars s'
  end.

(** What [for x in v] goes through. *)
Definition py_items (v : json) : result (list json) :=
  match v with
  | JList l => Ok l
  | JDict d => Ok (map (fun kv => JStr (fst kv)) d)
  | JStr s => Ok (chars s)
  | _ => Raise TypeError
  end.

Definition py_iter (v : json) : M (list json) := lift (py_items v).

(** [int] to [float], rounding to nearest even; too large an [int] raises
    [OverflowError]. *)
Definition float_of_int (z : Z) : result float :=
  match binary_normalize prec emax z 0 false with
  | S754_infinity _ => Raise OverflowError
  | sf => Ok (SF2Prim sf)
  end.

(** [x + v] for a [float] [x]. *)
Definition py_float_add (x : float) (v : json) : result json :=
  match v with
  | JFloat y => Ok (JFloat (x + y)%float)
  | JInt z =>
      match float_of_int z with
      | Ok y => Ok (JFloat (x + y)%float)
      | Raise e => Raise e
      end
  | JBool b => Ok (JFloat (x + (if b then 1 else 0))%float)
  | _ => Raise TypeError
  end.

Definition float_add (x : float) (v : json) : M json := lift (py_float_add x v).

Definition py_assert (b : bool) : M unit :=
  if b then ret tt else raise AssertionError.

(** A value put in a JSON body must be JSON. *)
Definition to_json (v : pyval) : M json :=
  match v with
  | PJson j => ret j
  | _ => raise TypeError
  end.

(** ** The heap *)

Definition getattr (l : loc) (name : string) : M pyval :=
  fun _ st =>
    match heap st !! l with
    | None => (Raise InvalidRef, st)
    | Some o =>
        match find_attr o name with
        | Some v => (Ok v, st)
        | None => (Raise (AttributeError (class_name (cls o)) name), st)
        end
    end.

(** [o] after [o.name = v]. *)
Definition set_attr (o : object) (name : string) (v : pyval) : object :=
  {| cls := cls o; attrs := dict_set (attrs o) name v |}.

Definition setattr (l : loc) (name : string) (v : pyval) : M unit :=
  fun _ st =>
    match heap st !! l with
    | None => (Raise InvalidRef, st)
    | Some o =>
        (Ok tt, {| heap := <[l := set_attr o name v]> (heap st); trace := trace st |})
    end.

Definition new (o : object) : M loc :=
  fun _ st =>
    (Ok (length (heap st)), {| heap := heap st ++ [o]; trace := trace st |}).

(** The constructors and the attributes they fill are annotated
    ([_api: SmartTub], [account: Account], [spa: Spa]); a method called
    through such an attribute is the method of that class.  On anything
    else the model stops with [TypeError]. *)
Definition instance_of (c : class) (v : pyval) : M loc :=
  match v with
  | PRef l =>
      fun _ st =>
        match heap st !! l with
        | None => (Raise InvalidRef, st)
        | Some o =>
            match c, cls o with
            | CSmartTub, CSmartTub | CAccount, CAccount | CSpa, CSpa => (Ok l, st)
            | _, _ => (Raise TypeError, st)
            end
        end
  | _ => raise TypeError
  end.

(** [f(self, **j)]: [j] must be a mapping, and may not name a positional
    parameter again. *)
Definition kwargs (positional : list string) (j : json) : M (dict json) :=
  match j with
  | JDict d =>
      if existsb (fun kv => existsb (String.eqb (fst kv)) positional) d
      then raise TypeError
      else ret d
  | _ => raise TypeError
  end.

(** ** [requests], [jwt] and [time] *)

Definition requests_request (method url : string) (headers : dict string)
    (body : json) : M http_response :=
  fun w st =>
    let rq := {| req_method := method; req_url := url;
                 req_headers := headers; req_json := body |} in
    (Ok (server w (trace st) rq),
     {| heap := heap st; trace := trace st ++ [rq] |}).

(** [Response.raise_for_status]: a 4xx or a 5xx status raises. *)
Definition raise_for_status (r : http_response) : M unit :=
  if (400 <=? status_code r) && (status_code r <? 600)
  then raise (HTTPError (status_code r) (resp_body r))
  else ret tt.

Definition response_json (r : http_response) : M json :=
  match resp_body r with
  | Some j => ret j
  | None => raise JSONDecodeError
  end.

(** [jwt.decode(token, verify=False)]: the claims, unverified.  What is not
    a [str], or does not decode, raises [DecodeError]. *)
Definition jwt_decode_unverified (token : pyval) : M json :=
  match token with
  | PJson (JStr s) =>
      fun w st =>
        match jwt_decode w s with
        | Some claims => (Ok claims, st)
        | None => (Raise DecodeError, st)
        end
  | _ => raise DecodeError
  end.

Definition time_time : M float := fun w st => (Ok (clock w), st).

(** ** [datetime] *)

(** Naive dates and times, as [datetime.date] and [datetime.time] hold them. *)
Record datetime_date := { year : Z; month : Z; day : Z }.
Record datetime_time := { hour : Z; minute : Z; second : Z; microsecond : Z }.

Fixpoint zeros (n : nat) : string :=
  match n with
  | O => EmptyString
  | S n' => String "0" (zeros n')
  end.

(** [%0{width}d]: the sign, if any, comes before the zeros. *)
Definition zfill (width : nat) (z : Z) : string :=
  let s := int_str (Z.abs z) in
  if z <? 0
  then "-" ++ zeros (width - 1 - String.length s) ++ s
  else zeros (width - String.length s) ++ s.

Definition date_isoformat (d : datetime_date) : string :=
  zfill 4 (year d) ++ "-" ++ zfill 2 (month d) ++ "-" ++ zfill 2 (day d).

(** [t.isoformat('minutes')] *)
Definition time_isoformat_minutes (t : datetime_time) : string :=
  zfill 2 (hour t) ++ ":" ++ zfill 2 (minute t).

(** ** The constructors *)

(** The instance each [__init__] leaves behind. *)

Definition account_object (_api : pyval) (id email : json) (properties : dict json) : object :=
  {| cls := CAccount;
     attrs := [ ("_api", _api); ("id", PJson id); ("email", PJson email);
                ("properties", PJson (JDict properties)) ] |}.

Definition spa_object (_api account : pyval) (id brand model : json)
    (properties : dict json) : object :=
  {| cls := CSpa;
     attrs := [ ("_api", _api); ("account", account); ("id", PJson id);
                ("brand", PJson brand); ("model", PJson model);
                ("properties", PJson (JDict properties)) ] |}.

Definition pump_object (_api spa : pyval) (id speed state type : json)
    (properties : dict json) : object :=
  {| cls := CSpaPump;
     attrs := [ ("_api", _api); ("spa", spa); ("id", PJson id); ("speed", PJson speed);
                ("state", PJson state); ("type", PJson type);
                ("properties", PJson (JDict properties)) ] |}.

Definition light_object (_api spa : pyval) (zone color intensity mode : json)
    (properties : dict json) : object :=
  {| cls := CSpaLight;
     attrs := [ ("_api", _api); ("spa", spa); ("zone", PJson zone); ("color", PJson color);
                ("intensity", PJson intensity); ("mode", PJson mode);
                ("properties", PJson (JDict properties)) ] |}.

Definition reminder_object (_api spa : pyval) (id : json) (last_updated : pyval)
    (name remaining_days snoozed state : json) : object :=
  {| cls := CSpaReminder;
     attrs := [ ("_api", _api); ("spa", spa); ("id", PJson id);
                ("last_updated", last_updated); ("name", PJson name);
                ("remaining_days", PJson remaining_days);
                ("snoozed", PJson snoozed); ("state", PJson state) ] |}.

Module Init.

(** [Account(_api, **j)] *)
Definition Account (_api : pyval) (j : json) : M loc :=
  properties <- kwargs ["self"; "_api"] j ;;
  id <- getitem (JDict properties) "id" ;;
  email <- getitem (JDict properties) "email" ;;
  new (account_object _api id email properties).

(** [Spa(_api, account, **j)] *)
Definition Spa (_api : pyval) (account : pyval) (j : json) : M loc :=
  properties <- kwargs ["self"; "_api"; "account"] j ;;
  id <- getitem (JDict properties) "id" ;;
  brand <- getitem (JDict properties) "brand" ;;
  model <- getitem (JDict properties) "model" ;;
  new (spa_object _api account id brand model properties).

(** [SpaPump(_api, spa, **j)] *)
Definition SpaPump (_api : pyval) (spa : pyval) (j : json) : M loc :=
  properties <- kwargs ["self"; "_api"; "spa"] j ;;
  id <- getitem (JDict properties) "id" ;;
  speed <- getitem (JDict properties) "speed" ;;
  state <- getitem (JDict properties) "state" ;;
  type <- getitem (JDict properties) "type" ;;
  new (pump_object _api spa id speed state type properties).

(** [SpaLight(_api, spa, **j)] *)
Definition SpaLight (_api : pyval) (spa : pyval) (j : json) : M loc :=
  properties <- kwargs ["self"; "_api"; "spa"] j ;;
  zone <- getitem (JDict properties) "zone" ;;
  color <- getitem (JDict properties) "color" ;;
  intensity <- getitem (JDict properties) "intensity" ;;
  mode <- getitem (JDict properties) "mode" ;;
  new (light_object _api spa zone color intensity mode properties).

(** [SpaReminder(_api, spa, **j)] *)
Definition SpaReminder (_api : pyval) (spa : pyval) (j : json) : M loc :=
  properties <- kwargs ["self"; "_api"; "spa"] j ;;
  id <- getitem (JDict properties) "id" ;;
  lastUpdated <- getitem (JDict properties) "lastUpdated" ;;
  last_updated <- (fun w st => (isoparse w lastUpdated, st)) ;;
  name <- getitem (JDict properties) "name" ;;
  remainingDuration <- getitem (JDict properties) "remainingDuration" ;;
  snoozed <- getitem (JDict properties) "snoozed" ;;
  state <- getitem (JDict properties) "state" ;;
  new (reminder_object _api spa id last_updated name remainingDuration snoozed state).

End Init.

(** ** class SmartTub *)

Module SmartTub.

Definition __init__ : M loc :=
  new {| cls := CSmartTub; attrs := [("logged_in", PJson (JBool false))] |}.

Definition login (self : loc) (username password : string) : M unit :=
  url <- getattr self "AUTH_URL" ;;
  audience <- getattr self "AUTH_AUDIENCE" ;;
  client_id <- getattr self "AUTH_CLIENT_ID" ;;
  realm <- getattr self "AUTH_REALM" ;;
  url <- fmt url ;;
  audience <- to_json audience ;;
  client_id <- to_json client_id ;;
  realm <- to_json realm ;;
  r <- requests_request "POST" url []
         (JDict [ ("audience", audience);
                  ("client_id", client_id);
                  ("grant_type", JStr "http://auth0.com/oauth/grant-type/password-realm");
                  ("realm", realm);
                  ("scope", JStr "openid email offline_access User Admin");
                  ("username", JStr username);
                  ("password", JStr password) ]) ;;
  raise_for_status r ;;
  j <- response_json r ;;
  access_token <- getitem j "access_token" ;;
  setattr self "access_token" access_token ;;
  access_token <- getattr self "access_token" ;;
  claims <- jwt_decode_unverified access_token ;;
  setattr self "access_token_data" claims ;;
  now <- time_time ;;
  expires_in <- getitem j "expires_in" ;;
  expires_at <- float_add now expires_in ;;
  setattr self "expires_at" expires_at ;;
  refresh_token <- getitem j "refresh_token" ;;
  setattr self "refresh_token" refresh_token ;;
  token_type <- getitem j "token_type" ;;
  py_assert (py_eq_str token_type "Bearer") ;;
  access_token_data <- getattr self "access_token_data" ;;
  key <- getattr self "AUTH_ACCOUNT_ID_KEY" ;;
  key <- fmt key ;;
  account_id <- getitem access_token_data key ;;
  setattr self "account_id" account_id ;;
  setattr self "logged_in" (JBool true).

Definition _headers (self : loc) : M (dict string) :=
  access_token <- getattr self "access_token" ;;
  t <- fmt access_token ;;
  ret [("Authorization", "Bearer " ++ t)].

Definition _require_login (self : loc) : M unit :=
  logged_in <- getattr self "logged_in" ;;
  if py_truthy logged_in then ret tt else raise (RuntimeError "not logged in").

Definition request (self : loc) (method path : string) (body : json) : M json :=
  _require_login self ;;
  base <- getattr self "API_BASE" ;;
  base <- fmt base ;;
  headers <- _headers self ;;
  r <- requests_request method (base ++ "/" ++ path) headers body ;;
  raise_for_status r ;;
  response_json r.

Definition get_account (self : loc) : M loc :=
  _require_login self ;;
  base <- getattr self "API_BASE" ;;
  base <- fmt base ;;
  account_id <- getattr self "account_id" ;;
  account_id <- fmt account_id ;;
  headers <- _headers self ;;
  r <- requests_request "GET" (base ++ "/accounts/" ++ account_id) headers JNull ;;
  raise_for_status r ;;
  j <- response_json r ;;
  Init.Account (PRef self) j.

End SmartTub.

(** ** class Spa *)

Module Spa.

Definition request (self : loc) (method : string) (resource : json)
    (body : json) : M json :=
  id <- getattr self "id" ;;
  id <- fmt id ;;
  resource <- fmt resource ;;
  _api <- getattr self "_api" ;;
  _api <- instance_of CSmartTub _api ;;
  SmartTub.request _api method ("spas/" ++ id ++ "/" ++ resource) body.

Definition get_status (self : loc) : M json :=
  request self "GET" (JStr "status") JNull.

Definition get_pumps (self : loc) : M (list loc) :=
  j <- request self "GET" (JStr "pumps") JNull ;;
  pumps <- getitem j "pumps" ;;
  pumps <- py_iter pumps ;;
  for_each (fun pump_info =>
              _api <- getattr self "_api" ;;
              Init.SpaPump _api (PRef self) pump_info) pumps.

Definition get_lights (self : loc) : M (list loc) :=
  j <- request self "GET" (JStr "lights") JNull ;;
  lights <- getitem j "lights" ;;
  lights <- py_iter lights ;;
  for_each (fun light_info =>
              _api <- getattr self "_api" ;;
              Init.SpaLight _api (PRef self) light_info) lights.

Definition get_errors (self : loc) : M json :=
  j <- request self "GET" (JStr "errors") JNull ;;
  getitem j "content".

Definition get_reminders (self : loc) : M (list loc) :=
  j <- request self "GET" (JStr "reminders") JNull ;;
  reminders <- getitem j "reminders" ;;
  reminders <- py_iter reminders ;;
  for_each (fun reminder_info =>
              _api <- getattr self "_api" ;;
              Init.SpaReminder _api (PRef self) reminder_info) reminders.

Definition get_debug_status (self : loc) : M json :=
  j <- request self "GET" (JStr "debugStatus") JNull ;;
  getitem j "debugStatus".

Definition get_energy_usage (self : loc) (interval : string)
    (start_date end_date : datetime_date) : M json :=
  intervals <- getattr self "ENERGY_USAGE_INTERVALS" ;;
  ok <- lift (py_in interval intervals) ;;
  py_assert ok ;;
  j <- request self "POST" (JStr "energyUsage")
         (JDict [ ("start", JStr (date_isoformat start_date));
                  ("end", JStr (date_isoformat end_date));
                  ("interval", JStr interval) ]) ;;
  getitem j "buckets".

Definition set_secondary_filtration_mode (self : loc) (mode : string) : M unit :=
  modes <- getattr self "SECONDARY_FILTRATION_MODES" ;;
  ok <- lift (py_in mode modes) ;;
  py_assert ok ;;
  request self "PATCH" (JStr "config")
    (JDict [("secondaryFiltrationConfig", JStr mode)]) ;;
  ret tt.

Definition set_heat_mode (self : loc) (mode : string) : M unit :=
  modes <- getattr self "HEAT_MODES" ;;
  ok <- lift (py_in mode modes) ;;
  py_assert ok ;;
  request self "PATCH" (JStr "config") (JDict [("heatMode", JStr mode)]) ;;
  ret tt.

Definition set_temperature (self : loc) (temp_c : json) : M unit :=
  request self "PATCH" (JStr "config") (JDict [("setTemperature", temp_c)]) ;;
  ret tt.

(** The parameter [str] is required and unused. *)
Definition toggle_clearray (self : loc) (str : pyval) : M unit :=
  request self "POST" (JStr "clearray/toggle") JNull ;;
  ret tt.

Definition set_temperature_format (self : loc) (temperature_format : string) : M unit :=
  modes <- getattr self "TEMPERATURE_MODES" ;;
  ok <- lift (py_in temperature_format modes) ;;
  py_assert ok ;;
  request self "POST" (JStr "config")
    (JDict [("displayTemperatureFormat", JStr temperature_format)]) ;;
  ret tt.

(** The last line is [self.request('POST', body)]: [body] is the second
    positional argument, so it is [request]'s [resource], and [request]'s own
    [body] keeps its default [None]. *)
Definition set_date_time (self : loc) (date : option datetime_date)
    (time : option datetime_time) : M unit :=
  py_assert (match date, time with None, None => false | _, _ => true end) ;;
  let config : dict json := [] in
  let config :=
    match date with
    | Some d => dict_set config "date" (JStr (date_isoformat d))
    | None => config
    end in
  let config :=
    match time with
    | Some t => dict_set config "time" (JStr (time_isoformat_minutes t))
    | None => config
    end in
  let body := JDict [("dateTimeConfig", JDict config)] in
  request self "POST" body JNull ;;
  ret tt.

End Spa.

(** ** class Account *)

Module Account.

Definition get_spa (self : loc) (spa_id : pyval) : M loc :=
  _api <- getattr self "_api" ;;
  api <- getattr self "_api" ;;
  api <- instance_of CSmartTub api ;;
  spa_id <- fmt spa_id ;;
  j <- SmartTub.request api "GET" ("spas/" ++ spa_id) JNull ;;
  Init.Spa _api (PRef self) j.

Definition get_spas (self : loc) : M (list loc) :=
  api <- getattr self "_api" ;;
  api <- instance_of CSmartTub api ;;
  id <- getattr self "id" ;;
  id <- fmt id ;;
  j <- SmartTub.request api "GET" ("spas?ownerId=" ++ id) JNull ;;
  content <- getitem j "content" ;;
  content <- py_iter content ;;
  for_each (fun spa_info : json =>
              spa_id <- getitem spa_info "id" ;;
              get_spa self spa_id) content.

End Account.

(** ** class SpaPump *)

Module SpaPump.

Definition toggle (self : loc) : M unit :=
  spa <- getattr self "spa" ;;
  spa <- instance_of CSpa spa ;;
  id <- getattr self "id" ;;
  id <- fmt id ;;
  Spa.request spa "POST" (JStr ("pumps/" ++ id ++ "/toggle")) JNull ;;
  ret tt.

End SpaPump.

(** ** class SpaLight *)

Module SpaLight.

Definition set (self : loc) (intensity : Z) (mode : string) : M unit :=
  modes <- getattr self "LIGHT_MODES" ;;
  ok <- lift (py_in mode modes) ;;
  py_assert ok ;;
  py_assert (Bool.eqb (intensity =? 0) (String.eqb mode "OFF")) ;;
  spa <- getattr self "spa" ;;
  spa <- instance_of CSpa spa ;;
  zone <- getattr self "zone" ;;
  zone <- fmt zone ;;
  Spa.request spa "PATCH" (JStr ("lights/" ++ zone))
    (JDict [("intensity", JInt intensity); ("mode", JStr mode)]) ;;
  ret tt.

Definition toggle (self : loc) : M unit :=
  spa <- getattr self "spa" ;;
  spa <- instance_of CSpa spa ;;
  id <- getattr self "id" ;;
  id <- fmt id ;;
  Spa.request spa "POST" (JStr ("pumps/" ++ id ++ "/toggle")) JNull ;;
  ret tt.

End SpaLight.

(** ** Vocabulary of the statements *)

Definition API_BASE : string := "https://api.smarttub.io".
Definition AUTH_URL : string := "https://smarttub.auth0.com/oauth/token".
Definition AUTH_ACCOUNT_ID_KEY : string := "http://operation-link.com/account_id".

(** What [l.name] evaluates to in [st], if anything. *)
Definition attr (st : state) (l : loc) (name : string) : option pyval :=
  match heap st !! l with
  | Some o => find_attr o name
  | None => None
  end.

(** A [SmartTub] instance as [__init__] and [login] leave it: no instance
    attribute hides a constant of the class. *)
Definition is_client (o : object) : Prop :=
  cls o = CSmartTub /\
  forall k, In k (map fst (class_attrs CSmartTub)) -> dict_get (attrs o) k = None.

(** There is a [SmartTub] instance at [api]. *)
Definition client_at (st : state) (api : loc) : Prop :=
  exists o, heap st !! api = Some o /\ cls o = CSmartTub.

(** [login] has not succeeded on [api]. *)
Definition logged_out (st : state) (api : loc) : Prop :=
  exists o, heap st !! api = Some o /\ cls o = CSmartTub /\
            dict_get (attrs o) "logged_in" = Some (PJson (JBool false)).

(** [login] has succeeded on [api] and left [token] as the access token. *)
Definition logged_in (st : state) (api : loc) (token : string) : Prop :=
  exists o, heap st !! api = Some o /\ is_client o /\
            dict_get (attrs o) "logged_in" = Some (PJson (JBool true)) /\
            dict_get (attrs o) "access_token" = Some (PJson (JStr token)) /\
            exists account_id, dict_get (attrs o) "account_id" = Some account_id.

(** The objects the constructors build. *)
Definition is_account (st : state) (self api : loc) (id : json) : Prop :=
  exists email properties,
    heap st !! self = Some (account_object (PRef api) id email properties).

Definition is_spa (st : state) (self api : loc) (id : json) : Prop :=
  exists account brand model properties,
    heap st !! self = Some (spa_object (PRef api) account id brand model properties).

Definition is_pump (st : state) (self spa : loc) (id : json) : Prop :=
  exists _api speed state type properties,
    heap st !! self = Some (pump_object _api (PRef spa) id speed state type properties).

Definition is_light (st : state) (self spa : loc) (zone : json) : Prop :=
  exists _api color intensity mode properties,
    heap st !! self = Some (light_object _api (PRef spa) zone color intensity mode properties).

(** The call [request] makes for [method], [path] and [body] with bearer
    token [token]. *)
Definition api_call (method path token : string) (body : json) : http_request :=
  {| req_method := method;
     req_url := API_BASE ++ "/" ++ path;
     req_headers := [("Authorization", "Bearer " ++ token)];
     req_json := body |}.

(** The call [login] makes. *)
Definition login_call (username password : string) : http_request :=
  {| req_method := "POST";
     req_url := AUTH_URL;
     req_headers := [];
     req_json :=
       JDict [ ("audience", JStr "https://api.operation-link.com/");
               ("client_id", JStr "dB7Rcp3rfKKh0vHw2uqkwOZmRb5WNjQC");
               ("grant_type", JStr "http://auth0.com/oauth/grant-type/password-realm");
               ("realm", JStr "Username-Password-Authentication");
               ("scope", JStr "openid email offline_access User Admin");
               ("username", JStr username);
               ("password", JStr password) ] |}.

(** [st] after one more HTTP call, and nothing else. *)
Definition sent (st : state) (rq : http_request) : state :=
  {| heap := heap st; trace := trace st ++ [rq] |}.

(** What [r.raise_for_status()] followed by [r.json()] comes to. *)
Definition response_result (r : http_response) : result json :=
  if (400 <=? status_code r) && (status_code r <? 600)
  then Raise (HTTPError (status_code r) (resp_body r))
  else match resp_body r with
       | Some j => Ok j
       | None => Raise JSONDecodeError
       end.

(** A method that returns nothing: its outcome once the response is in. *)
Definition discard (r : result json) : result unit :=
  match r with
  | Ok _ => Ok tt
  | Raise e => Raise e
  end.

(** The call is turned down for want of a login, and nothing happened. *)
Definition refused {A} (m : M A) (w : world) (st : state) : Prop :=
  m w st = (Raise (RuntimeError "not logged in"), st).

(** The call made one HTTP call, got an error status, and raised it; the
    heap is as it was. *)
Definition fails_with_status {A} (m : M A) (w : world) (st : state) : Prop :=
  exists rq,
    m w st = (Raise (HTTPError (status_code (server w (trace st) rq))
                               (resp_body (server w (trace st) rq))),
              sent st rq).

(** Whatever comes of [m], no object is changed, added or removed. *)
Definition preserves_heap {A} (m : M A) : Prop :=
  forall w st, heap (snd (m w st)) = heap st.

(** The call [Spa.request] makes for a spa whose [id] is [id]. *)
Definition spa_api_call (w : world) (token : string) (id : json) (method : string)
    (resource body : json) : http_request :=
  api_call method ("spas/" ++ py_str w id ++ "/" ++ py_str w resource) token body.

(** The [HTTPError] that [raise_for_status] raises for [r]. *)
Definition status_error (r : http_response) : exn :=
  HTTPError (status_code r) (resp_body r).

(** If the API answers the call [rq], made in [st], with a 4xx or a 5xx,
    then [m] makes that call and no other, and raises the [HTTPError] of
    that status and response; the heap is as it was.  Nothing is asked of
    the answers to other calls. *)
Definition raises_on_error {A} (m : M A) (w : world) (st : state) (rq : http_request) : Prop :=
  400 <= status_code (server w (trace st) rq) < 600 ->
  m w st = (Raise (status_error (server w (trace st) rq)), sent st rq).

(** [st'] has the objects of [st], unchanged, and maybe new ones. *)
Definition extends (st st' : state) : Prop :=
  exists added, heap st' = (heap st ++ added)%list.



(** The call [get_spa] makes for [spa_id]. *)
Definition spa_call (w : world) (token : string) (spa_id : pyval) : http_request :=
  api_call "GET" ("spas/" ++ py_str w spa_id) token JNull.

(** ** A world to run the code in *)

Definition ok_json (j : json) : http_response :=
  {| status_code := 200; resp_body := Some j |}.

Fixpoint strip_prefix (p s : string) : option string :=
  match p, s with
  | EmptyString, _ => Some s
  | String a p', String b s' => if Ascii.eqb a b then strip_prefix p' s' else None
  | String _ _, EmptyString => None
  end.

Definition demo_server (history : list http_request) (rq : http_request) : http_response :=
  let url := req_url rq in
  if String.eqb url "https://smarttub.auth0.com/oauth/token" then
    ok_json (JDict [ ("access_token", JStr "tok"); ("token_type", JStr "Bearer");
                     ("expires_in", JInt 86400); ("refresh_token", JStr "ref") ])
  else if String.eqb url "https://api.smarttub.io/accounts/acct1" then
    ok_json (JDict [("id", JStr "acct1"); ("email", JStr "user@example.com")])
  else if String.eqb url "https://api.smarttub.io/spas?ownerId=acct1" then
    ok_json (JDict [("content", JList [JDict [("id", JStr "spa1")]])])
  else
    match strip_prefix "https://api.smarttub.io/spas/" url with
    | Some rest =>
        if String.eqb rest "spa1/pumps" then
          ok_json (JDict [("pumps", JList [JDict [ ("id", JStr "P1"); ("speed", JStr "ONE_SPEED");
                                                   ("state", JStr "OFF"); ("type", JStr "CIRCULATION") ]])])
        else if String.eqb rest "spa1/lights" then
          ok_json (JDict [("lights", JList [JDict [ ("zone", JInt 1); ("color", JDict [("red", JInt 0)]);
                                                    ("intensity", JInt 0); ("mode", JStr "OFF") ]])])
        else if String.eqb rest "spa1/energyUsage" then
          ok_json (JDict [("buckets", JList [JInt 3; JInt 4])])
        else if contains_char "/" rest then ok_json (JDict [])
        else ok_json (JDict [("id", JStr rest); ("brand", JStr "jacuzzi"); ("model", JStr "J-335")])
    | None => {| status_code := 404; resp_body := None |}
    end.

Definition demo_world : world :=
  {| server := demo_server;
     jwt_decode := fun token =>
       if String.eqb token "tok"
       then Some (JDict [("http://operation-link.com/account_id", JStr "acct1")])
       else None;
     clock := 1600000000%float;
     float_repr := fun _ => "<float>";
     unicode_repr := fun _ => "<text>";
     opaque_str := fun _ => "<object>";
     isoparse := fun j => Ok (PJson j) |}.

(** The same world with an API that answers everything with [status]. *)
Definition world_answering (status : Z) (payload : option json) : world :=
  {| server := fun _ _ => {| status_code := status; resp_body := payload |};
     jwt_decode := jwt_decode demo_world;
     clock := clock demo_world;
     float_repr := float_repr demo_world;
     unicode_repr := unicode_repr demo_world;
     opaque_str := opaque_str demo_world;
     isoparse := isoparse demo_world |}.

(** The demo world with another API in place of its own. *)
Definition world_serving (api : list http_request -> http_request -> http_response) : world :=
  {| server := api;
     jwt_decode := jwt_decode demo_world;
     clock := clock demo_world;
     float_repr := float_repr demo_world;
     unicode_repr := unicode_repr demo_world;
     opaque_str := opaque_str demo_world;
     isoparse := isoparse demo_world |}.


(** An API that lists [spa1] and is out of service when asked for it. *)
Definition unavailable_spa_world : world :=
  world_serving (fun history rq =>
    if String.eqb (req_url rq) "https://api.smarttub.io/spas/spa1" then
      {| status_code := 503; resp_body := None |}
    else demo_server history rq).

Definition empty_state : state := {| heap := []; trace := [] |}.

(** A session: log in, fetch the account, its spas, and the pumps and lights
    of the first one.  The objects end up at [0] (client), [1] (account),
    [2] (spa), [3] (pump), [4] (light). *)
Definition demo_session : M unit :=
  api <- SmartTub.__init__ ;;
  SmartTub.login api "user@example.com" "secret" ;;
  account <- SmartTub.get_account api ;;
  spas <- Account.get_spas account ;;
  match spas with
  | spa :: _ => Spa.get_pumps spa ;; Spa.get_lights spa ;; ret tt
  | [] => ret tt
  end.

Definition demo_state : state :=
  Eval vm_compute in snd (demo_session demo_world empty_state).



(** Where the objects of both sessions are. *)
Definition the_api : loc := 0%nat.
Definition the_account : loc := 1%nat.
Definition the_spa : loc := 2%nat.
Definition the_pump : loc := 3%nat.
Definition the_light : loc := 4%nat.

(** The demo session, had someone given its light an [id]. *)
Definition labelled_light_state : state :=
  Eval vm_compute in snd (setattr the_light "id" (PJson (JStr "L1")) demo_world demo_state).

(** The client of the demo session before [login]. *)
Definition fresh_state : state :=
  Eval vm_compute in snd (SmartTub.__init__ demo_world empty_state).

(** The body [set_date_time] builds. *)
Definition date_time_body (date : option datetime_date) (time : option datetime_time) : json :=
  JDict [("dateTimeConfig",
          JDict (match date with
                 | Some d => [("date", JStr (date_isoformat d))]
                 | None => []
                 end ++
                 match time with
                 | Some t => [("time", JStr (time_isoformat_minutes t))]
                 | None => []
                 end))].

(** The client of the demo session right after [login]. *)
Definition logged_in_state : state :=
  Eval vm_compute in
    snd (SmartTub.login the_api "user@example.com" "secret" demo_world fresh_state).

(** The demo session after [get_account], and after [get_spas]. *)
Definition account_state : state :=
  Eval vm_compute in snd (SmartTub.get_account the_api demo_world logged_in_state).




(** The same account against the API that is out of service for [spa1]:
    where [get_spas] stops. *)
Definition unavailable_state : state :=
  Eval vm_compute in snd (Account.get_spas the_account unavailable_spa_world account_state).

(** The shape of an ISO-8601 calendar date: [dddd-dd-dd]. *)
Definition is_digit (c : ascii) : bool :=
  (Nat.leb 48 (nat_of_ascii c) && Nat.leb (nat_of_ascii c) 57)%bool.

Fixpoint all_digits (n : nat) (s : string) : bool :=
  match n, s with
  | O, EmptyString => true
  | S n', String c s' => is_digit c && all_digits n' s'
  | _, _ => false
  end.

Definition iso_date_shape (s : string) : bool :=
  all_digits 4 (substring 0 4 s) && String.eqb (substring 4 1 s) "-" &&
  all_digits 2 (substring 5 2 s) && String.eqb (substring 7 1 s) "-" &&
  all_digits 2 (substring 8 2 s) && Nat.eqb (String.length s) 10.

(** What every [datetime.date] satisfies. *)
Definition valid_date (d : datetime_date) : Prop :=
  1 <= year d <= 9999 /\ 1 <= month d <= 12 /\ 1 <= day d <= 31.

(** ** What a computation leaves alone *)

(** [m] takes any state to one that [R] relates it to, whatever it answers. *)
Definition respects (R : state -> state -> Prop) {A} (m : M A) : Prop :=
  forall w st, R st (snd (m w st)).

(** [m] leaves the state as it found it. *)
Definition stateless {A} (m : M A) : Prop :=
  forall w st, snd (m w st) = st.

Definition same_trace (st st' : state) : Prop := trace st' = trace st.

(** The heap of [st'] is the heap of [st] but for the object at [l]. *)
Definition same_but (l : loc) (st st' : state) : Prop :=
  length (heap st') = length (heap st) /\
  forall l', l' <> l -> heap st' !! l' = heap st !! l'.

Definition no_call {A} (m : M A) : Prop := respects same_trace m.

Definition only_allocates {A} (m : M A) : Prop := respects extends m.

Definition touches_only (l : loc) {A} (m : M A) : Prop := respects (same_but l) m.

Definition at_most_one_call {A} (m : M A) : Prop :=
  forall w st,
    trace (snd (m w st)) = trace st \/
    exists rq, trace (snd (m w st)) = (trace st ++ [rq])%list.

(** A relation between states that steps compose along. *)
Class Frame (R : state -> state -> Prop) : Prop := {
  frame_refl : forall st, R st st;
  frame_trans : forall st1 st2 st3, R st1 st2 -> R st2 st3 -> R st1 st3
}.

(** ** Objects and the records they were built from *)

Definition account_from (st : state) (account : loc) (_api : pyval) (record : json) : Prop :=
  exists props id email,
    record = JDict props /\
    dict_get props "id" = Some id /\
    dict_get props "email" = Some email /\
    heap st !! account = Some (account_object _api id email props).

Definition pump_from (st : state) (pump : loc) (_api : pyval) (spa : loc) (record : json) : Prop :=
  exists props id speed state type,
    record = JDict props /\
    dict_get props "id" = Some id /\
    dict_get props "speed" = Some speed /\
    dict_get props "state" = Some state /\
    dict_get props "type" = Some type /\
    heap st !! pump = Some (pump_object _api (PRef spa) id speed state type props).

Definition light_from (st : state) (light : loc) (_api : pyval) (spa : loc) (record : json) : Prop :=
  exists props zone color intensity mode,
    record = JDict props /\
    dict_get props "zone" = Some zone /\
    dict_get props "color" = Some color /\
    dict_get props "intensity" = Some intensity /\
    dict_get props "mode" = Some mode /\
    heap st !! light = Some (light_object _api (PRef spa) zone color intensity mode props).


(** ** More worlds *)

(** A world whose authentication server grants [token] as a [token_type]
    token to whoever asks, and where every token decodes. *)
Definition world_granting (token token_type : string) : world :=
  {| server := fun _ _ =>
       ok_json (JDict [ ("access_token", JStr token); ("token_type", JStr token_type);
                        ("expires_in", JInt 3600); ("refresh_token", JStr "ref2") ]);
     jwt_decode := fun _ => Some (JDict [("http://operation-link.com/account_id", JStr "acct1")]);
     clock := clock demo_world;
     float_repr := float_repr demo_world;
     unicode_repr := unicode_repr demo_world;
     opaque_str := opaque_str demo_world;
     isoparse := isoparse demo_world |}.

(** The demo session after a second login, in a world that grants [tok2]. *)
Definition relogged_state : state :=
  Eval vm_compute in
    snd (SmartTub.login the_api "user@example.com" "secret"
           (world_granting "tok2" "Bearer") demo_state).


(** * Properties *)

(** ** Running the primitives *)

Lemma dict_get_In {V} (d : dict V) k v :
  dict_get d k = Some v -> In k (map fst d).
Proof.
  induction d as [|[k' v'] d IH]; cbn; [discriminate|].
  destruct (String.eqb_spec k' k); [left; assumption | right; auto].
Qed.

Lemma is_client_const o k v :
  is_client o -> dict_get (class_attrs CSmartTub) k = Some v -> find_attr o k = Some v.
Proof.
  intros [Hc Hn] Hk. unfold find_attr. rewrite Hc, Hk.
  rewrite Hn; [reflexivity|]. eapply dict_get_In, Hk.
Qed.

Lemma existsb_eqb_In s l : existsb (String.eqb s) l = true <-> In s l.
Proof.
  rewrite existsb_exists. split.
  - intros (x & Hx & He). apply String.eqb_eq in He. subst. assumption.
  - intros H. exists s. split; [assumption | apply String.eqb_refl].
Qed.

Lemma existsb_eqb_not_In s l : ~ In s l -> existsb (String.eqb s) l = false.
Proof.
  intros H. destruct (existsb (String.eqb s) l) eqn:E; [|reflexivity].
  apply existsb_eqb_In in E. contradiction.
Qed.

Lemma bind_run {A B} (m : M A) (k : A -> M B) w st r st' :
  m w st = (r, st') ->
  bind m k w st = match r with Ok a => k a w st' | Raise e => (Raise e, st') end.
Proof. unfold bind. intros ->. destruct r; reflexivity. Qed.

Lemma getattr_run l name o v w st :
  heap st !! l = Some o -> find_attr o name = Some v ->
  getattr l name w st = (Ok v, st).
Proof. unfold getattr. intros -> ->. reflexivity. Qed.

Lemma getattr_missing l name o w st :
  heap st !! l = Some o -> find_attr o name = None ->
  getattr l name w st = (Raise (AttributeError (class_name (cls o)) name), st).
Proof. unfold getattr. intros -> ->. reflexivity. Qed.

Lemma instance_of_run c l o w st :
  heap st !! l = Some o -> cls o = c -> (c = CSmartTub \/ c = CAccount \/ c = CSpa) ->
  instance_of c (PRef l) w st = (Ok l, st).
Proof.
  unfold instance_of. intros -> <- Hc.
  destruct Hc as [Hc | [Hc | Hc]]; rewrite Hc; reflexivity.
Qed.

(** ** The client *)

Lemma require_login_refused w st api :
  logged_out st api -> refused (SmartTub._require_login api) w st.
Proof.
  intros (o & Ho & _ & Hl). unfold refused, SmartTub._require_login.
  erewrite bind_run by (eapply getattr_run; [exact Ho | unfold find_attr; rewrite Hl; reflexivity]).
  reflexivity.
Qed.

Lemma request_refused w st api method path body :
  logged_out st api -> refused (SmartTub.request api method path body) w st.
Proof.
  intros H. unfold refused, SmartTub.request.
  erewrite bind_run by (apply require_login_refused; exact H). reflexivity.
Qed.

Lemma get_account_refused w st api :
  logged_out st api -> refused (SmartTub.get_account api) w st.
Proof.
  intros H. unfold refused, SmartTub.get_account.
  erewrite bind_run by (apply require_login_refused; exact H). reflexivity.
Qed.

Lemma checked_response r w st :
  (raise_for_status r ;; response_json r) w st = (response_result r, st).
Proof.
  unfold bind, raise_for_status, response_json, response_result.
  destruct (_ && _); cbn; [reflexivity|].
  destruct (resp_body r); reflexivity.
Qed.

Lemma request_sends w st api token method path body :
  logged_in st api token ->
  SmartTub.request api method path body w st =
    (response_result (server w (trace st) (api_call method path token body)),
     sent st (api_call method path token body)).
Proof.
  intros (o & Ho & Hcl & Hl & Ht & _).
  pose proof (is_client_const o "API_BASE" _ Hcl eq_refl) as Hb.
  unfold SmartTub.request, SmartTub._require_login, SmartTub._headers.
  erewrite bind_run
    by (erewrite bind_run
          by (eapply getattr_run; [exact Ho | unfold find_attr; rewrite Hl; reflexivity]);
        reflexivity).
  cbn beta iota.
  erewrite bind_run by (eapply getattr_run; [exact Ho | exact Hb]).
  cbn beta iota. unfold fmt at 1. unfold bind at 1. cbn beta iota.
  erewrite bind_run
    by (erewrite bind_run
          by (eapply getattr_run; [exact Ho | unfold find_attr; rewrite Ht; reflexivity]);
        reflexivity).
  cbn beta iota. unfold bind at 1, requests_request at 1. cbn beta iota zeta.
  apply checked_response.
Qed.

(** ** Devices *)

Lemma logged_out_client st api : logged_out st api -> client_at st api.
Proof. intros (o & Ho & Hc & _). exists o. auto. Qed.

Lemma logged_in_client st api token : logged_in st api token -> client_at st api.
Proof. intros (o & Ho & [Hc _] & _). exists o. auto. Qed.

#[local] Hint Resolve logged_out_client logged_in_client : core.

(** [Spa.request] is the client's [request] on the path under the spa. *)
Lemma spa_request_delegates w st spa api id method resource body :
  is_spa st spa api id -> client_at st api ->
  Spa.request spa method resource body w st =
    SmartTub.request api method ("spas/" ++ py_str w id ++ "/" ++ py_str w resource) body w st.
Proof.
  intros (account & brand & model & props & Hs) (o & Ho & Hc).
  unfold Spa.request.
  erewrite bind_run by (eapply getattr_run; [exact Hs | reflexivity]).
  cbn beta iota. unfold fmt at 1 2. unfold bind at 1 2. cbn beta iota.
  erewrite bind_run by (eapply getattr_run; [exact Hs | reflexivity]).
  cbn beta iota.
  erewrite bind_run by (eapply instance_of_run; [exact Ho | exact Hc | auto]).
  reflexivity.
Qed.


Lemma spa_request_sends w st spa api id token method resource body :
  is_spa st spa api id -> logged_in st api token ->
  Spa.request spa method resource body w st =
    (response_result
       (server w (trace st)
          (api_call method ("spas/" ++ py_str w id ++ "/" ++ py_str w resource) token body)),
     sent st (api_call method ("spas/" ++ py_str w id ++ "/" ++ py_str w resource) token body)).
Proof.
  intros Hs Hin. erewrite spa_request_delegates by eauto. apply request_sends, Hin.
Qed.

Lemma account_get_spa_delegates w st acct api id spa_id :
  is_account st acct api id -> client_at st api ->
  Account.get_spa acct spa_id w st =
    (j <- SmartTub.request api "GET" ("spas/" ++ py_str w spa_id) JNull ;;
     Init.Spa (PRef api) (PRef acct) j) w st.
Proof.
  intros (email & props & Ha) (o & Ho & Hc).
  unfold Account.get_spa.
  erewrite bind_run by (eapply getattr_run; [exact Ha | reflexivity]).
  cbn beta iota.
  erewrite bind_run by (eapply getattr_run; [exact Ha | reflexivity]).
  cbn beta iota.
  erewrite bind_run by (eapply instance_of_run; [exact Ho | exact Hc | auto]).
  cbn beta iota. unfold fmt at 1, bind at 1. reflexivity.
Qed.

Lemma account_get_spas_delegates w st acct api id :
  is_account st acct api id -> client_at st api ->
  Account.get_spas acct w st =
    (j <- SmartTub.request api "GET" ("spas?ownerId=" ++ py_str w id) JNull ;;
     content <- getitem j "content" ;;
     content <- py_iter content ;;
     for_each (fun spa_info : json =>
                 spa_id <- getitem spa_info "id" ;;
                 Account.get_spa acct spa_id) content) w st.
Proof.
  intros (email & props & Ha) (o & Ho & Hc).
  unfold Account.get_spas.
  erewrite bind_run by (eapply getattr_run; [exact Ha | reflexivity]).
  cbn beta iota.
  erewrite bind_run by (eapply instance_of_run; [exact Ho | exact Hc | auto]).
  cbn beta iota.
  erewrite bind_run by (eapply getattr_run; [exact Ha | reflexivity]).
  cbn beta iota. unfold fmt at 1, bind at 1. reflexivity.
Qed.


(** Reading a constant of class [Spa] through an instance the constructor
    built. *)
Lemma spa_constant w st spa api id name v :
  is_spa st spa api id -> dict_get (class_attrs CSpa) name = Some v ->
  getattr spa name w st = (Ok v, st).
Proof.
  intros (account & brand & model & props & Hs) Hv.
  eapply getattr_run; [exact Hs|].
  pose proof (dict_get_In _ _ _ Hv) as Hin. simpl in Hin.
  repeat (destruct Hin as [<- | Hin]; [exact Hv|]). contradiction.
Qed.

(** A validated call: the argument is looked up in a constant of the class,
    and the call goes on only if it is there. *)
Lemma spa_validate {A} w st spa api id name (allowed : list string) (x : string)
    (k : M A) :
  is_spa st spa api id ->
  dict_get (class_attrs CSpa) name = Some (PSet allowed) ->
  (modes <- getattr spa name ;; ok <- lift (py_in x modes) ;; py_assert ok ;; k) w st =
  if existsb (String.eqb x) allowed then k w st else (Raise AssertionError, st).
Proof.
  intros Hs Hv.
  erewrite bind_run by (eapply spa_constant; eassumption).
  cbn beta iota. unfold lift at 1, bind at 1. cbn [py_in].
  destruct (existsb (String.eqb x) allowed); reflexivity.
Qed.

Lemma spa_validate_interval {A} w st spa api id (x : string) (k : M A) :
  is_spa st spa api id ->
  (intervals <- getattr spa "ENERGY_USAGE_INTERVALS" ;;
   ok <- lift (py_in x intervals) ;; py_assert ok ;; k) w st =
  if existsb (String.eqb x) ["DAY"; "MONTH"] then k w st else (Raise AssertionError, st).
Proof.
  intros Hs.
  erewrite bind_run by (eapply spa_constant; [eassumption | reflexivity]).
  cbn beta iota. unfold lift at 1, bind at 1. cbn [py_in existsb py_eq_str].
  rewrite (String.eqb_sym "DAY" x), (String.eqb_sym "MONTH" x).
  destruct (_ || _); reflexivity.
Qed.

Lemma pump_toggle_delegates w st pump spa id :
  is_pump st pump spa id ->
  (exists api sid, is_spa st spa api sid) ->
  SpaPump.toggle pump w st =
    (_ <- Spa.request spa "POST" (JStr ("pumps/" ++ py_str w id ++ "/toggle")) JNull ;; ret tt) w st.
Proof.
  intros (a & speed & state & type & props & Hp) (api & sid & acc & b & m & p & Hs).
  unfold SpaPump.toggle.
  erewrite bind_run by (eapply getattr_run; [exact Hp | reflexivity]).
  cbn beta iota.
  erewrite bind_run by (eapply instance_of_run; [exact Hs | reflexivity | auto]).
  cbn beta iota.
  erewrite bind_run by (eapply getattr_run; [exact Hp | reflexivity]).
  cbn beta iota. unfold fmt at 1, bind at 1. reflexivity.
Qed.



(** ** Dates in ISO form *)

Lemma zfill_digits width (bound : Z) :
  forallb (fun n => all_digits width (zfill width (Z.of_nat n)))
    (seq 0 (Z.to_nat bound)) = true ->
  forall z, 0 <= z < bound -> all_digits width (zfill width z) = true.
Proof.
  intros H z Hz. rewrite forallb_forall in H.
  rewrite <- (Z2Nat.id z) by lia. apply H.
  apply in_seq. split; [lia|]. cbn. apply Z2Nat.inj_lt; lia.
Qed.

(** A date of the calendar prints as [dddd-dd-dd]. *)
Lemma date_isoformat_shape d :
  valid_date d -> iso_date_shape (date_isoformat d) = true.
Proof.
  intros (Hy & Hm & Hd).
  assert (Y : all_digits 4 (zfill 4 (year d)) = true)
    by (apply (zfill_digits 4 10000); [vm_compute; reflexivity | lia]).
  assert (Mo : all_digits 2 (zfill 2 (month d)) = true)
    by (apply (zfill_digits 2 100); [vm_compute; reflexivity | lia]).
  assert (D : all_digits 2 (zfill 2 (day d)) = true)
    by (apply (zfill_digits 2 100); [vm_compute; reflexivity | lia]).
  unfold date_isoformat.
  destruct (zfill 4 (year d)) as [|y1 [|y2 [|y3 [|y4 [|? ?]]]]];
    cbn in Y; rewrite ?andb_false_r in Y; try discriminate Y.
  destruct (zfill 2 (month d)) as [|m1 [|m2 [|? ?]]];
    cbn in Mo; rewrite ?andb_false_r in Mo; try discriminate Mo.
  destruct (zfill 2 (day d)) as [|d1 [|d2 [|? ?]]];
    cbn in D; rewrite ?andb_false_r in D; try discriminate D.
  unfold iso_date_shape. cbn. rewrite Y, Mo, D. reflexivity.
Qed.

(** ** The two sessions *)

Lemma demo_logged_in : logged_in demo_state the_api "tok".
Proof.
  eexists. split; [reflexivity|].
  split; [|split; [|split; [|eexists]]; reflexivity].
  split; [reflexivity|]. intros k Hk. simpl in Hk.
  repeat (destruct Hk as [<- | Hk]; [reflexivity|]). contradiction.
Qed.

Lemma demo_is_account : is_account demo_state the_account the_api (JStr "acct1").
Proof. do 2 eexists. reflexivity. Qed.

Lemma demo_is_spa : is_spa demo_state the_spa the_api (JStr "spa1").
Proof. do 4 eexists. reflexivity. Qed.

Lemma demo_is_pump : is_pump demo_state the_pump the_spa (JStr "P1").
Proof. do 5 eexists. reflexivity. Qed.

Lemma demo_is_light : is_light demo_state the_light the_spa (JInt 1).
Proof. do 5 eexists. reflexivity. Qed.






(** ** Validated mutators and reads *)

Lemma discard_run (m : M json) w st r st' :
  m w st = (r, st') -> (m ;; ret tt) w st = (discard r, st').
Proof. intros H. erewrite bind_run by exact H. destruct r; reflexivity. Qed.

(** C4.  [set_heat_mode] with a mode outside {ECONOMY, DAY, AUTO} raises
    [AssertionError] (the error of a failed argument check) and makes no HTTP
    call; with a mode of the set, on a logged-in client, it makes one call,
    a PATCH to [spas/{id}/config] with body [{'heatMode': mode}]. *)
Theorem set_heat_mode_checks_mode w st spa api id mode :
  is_spa st spa api id ->
  (~ In mode ["ECONOMY"; "DAY"; "AUTO"] ->
     Spa.set_heat_mode spa mode w st = (Raise AssertionError, st)) /\
  (In mode ["ECONOMY"; "DAY"; "AUTO"] ->
     forall token, logged_in st api token ->
     let rq := api_call "PATCH" ("spas/" ++ py_str w id ++ "/config") token
                 (JDict [("heatMode", JStr mode)]) in
     Spa.set_heat_mode spa mode w st =
       (discard (response_result (server w (trace st) rq)), sent st rq)).
Proof.
  intros Hs. split.
  - intros Hn. unfold Spa.set_heat_mode.
    erewrite spa_validate by (try eassumption; reflexivity).
    rewrite existsb_eqb_not_In by assumption. reflexivity.
  - intros Hin token Hl rq. unfold Spa.set_heat_mode.
    erewrite spa_validate by (try eassumption; reflexivity).
    rewrite (proj2 (existsb_eqb_In _ _)) by assumption.
    apply discard_run. eapply spa_request_sends; eassumption.
Qed.

(** C4, run: the spa of the demo session. *)
Lemma set_heat_mode_checks_mode_witness :
  is_spa demo_state the_spa the_api (JStr "spa1") /\
  Spa.set_heat_mode the_spa "INVALID" demo_world demo_state = (Raise AssertionError, demo_state) /\
  Spa.set_heat_mode the_spa "ECONOMY" demo_world demo_state =
    (Ok tt,
     sent demo_state
       {| req_method := "PATCH";
          req_url := "https://api.smarttub.io/spas/spa1/config";
          req_headers := [("Authorization", "Bearer tok")];
          req_json := JDict [("heatMode", JStr "ECONOMY")] |}).
Proof.
  pose proof demo_is_spa as Hs. pose proof demo_logged_in as Hl.
  destruct (set_heat_mode_checks_mode demo_world demo_state the_spa the_api (JStr "spa1") "INVALID" Hs)
    as (Hbad & _).
  destruct (set_heat_mode_checks_mode demo_world demo_state the_spa the_api (JStr "spa1") "ECONOMY" Hs)
    as (_ & Hgood).
  split; [exact Hs|]. split.
  - apply Hbad. simpl. intros [H | [H | [H | H]]]; try discriminate H; exact H.
  - refine (eq_trans (Hgood (or_introl eq_refl) "tok" Hl) _). reflexivity.
Defined.

(** C5.  [get_energy_usage] with an interval outside {DAY, MONTH} (such as
    YEAR) raises [AssertionError] and makes no HTTP call; with an interval of
    the set, on a logged-in client, it makes one call, a POST to
    [spas/{id}/energyUsage] whose body gives the two dates as
    [date.isoformat()] prints them ([dddd-dd-dd]) and the interval, and
    returns the [buckets] entry of the response. *)
Theorem get_energy_usage_checks_interval w st spa api id interval start_date end_date :
  is_spa st spa api id ->
  (~ In interval ["DAY"; "MONTH"] ->
     Spa.get_energy_usage spa interval start_date end_date w st = (Raise AssertionError, st)) /\
  (In interval ["DAY"; "MONTH"] ->
     forall token, logged_in st api token ->
     let rq := api_call "POST" ("spas/" ++ py_str w id ++ "/energyUsage") token
                 (JDict [ ("start", JStr (date_isoformat start_date));
                          ("end", JStr (date_isoformat end_date));
                          ("interval", JStr interval) ]) in
     Spa.get_energy_usage spa interval start_date end_date w st =
       (match response_result (server w (trace st) rq) with
        | Ok j => py_getitem j "buckets"
        | Raise e => Raise e
        end, sent st rq)) /\
  (valid_date start_date -> valid_date end_date ->
     iso_date_shape (date_isoformat start_date) = true /\
     iso_date_shape (date_isoformat end_date) = true).
Proof.
  intros Hs. split; [|split].
  - intros Hn. unfold Spa.get_energy_usage.
    erewrite spa_validate_interval by eassumption.
    rewrite existsb_eqb_not_In by assumption. reflexivity.
  - intros Hin token Hl rq. unfold Spa.get_energy_usage.
    erewrite spa_validate_interval by eassumption.
    rewrite (proj2 (existsb_eqb_In _ _)) by assumption.
    erewrite bind_run by (eapply spa_request_sends; eassumption).
    fold rq. destruct (response_result _); reflexivity.
  - intros Hstart Hend. split; apply date_isoformat_shape; assumption.
Qed.

(** C5, run: the spa of the demo session, January 2020. *)
Lemma get_energy_usage_checks_interval_witness :
  is_spa demo_state the_spa the_api (JStr "spa1") /\
  Spa.get_energy_usage the_spa "YEAR" {| year := 2020; month := 1; day := 5 |}
      {| year := 2020; month := 2; day := 1 |} demo_world demo_state =
    (Raise AssertionError, demo_state) /\
  Spa.get_energy_usage the_spa "DAY" {| year := 2020; month := 1; day := 5 |}
      {| year := 2020; month := 2; day := 1 |} demo_world demo_state =
    (Ok (JList [JInt 3; JInt 4]),
     sent demo_state
       {| req_method := "POST";
          req_url := "https://api.smarttub.io/spas/spa1/energyUsage";
          req_headers := [("Authorization", "Bearer tok")];
          req_json := JDict [ ("start", JStr "2020-01-05"); ("end", JStr "2020-02-01");
                              ("interval", JStr "DAY") ] |}) /\
  iso_date_shape (date_isoformat {| year := 2020; month := 1; day := 5 |}) = true.
Proof.
  pose proof demo_is_spa as Hs. pose proof demo_logged_in as Hl.
  split; [exact Hs|]. split; [|split].
  - apply (proj1 (get_energy_usage_checks_interval demo_world demo_state the_spa the_api (JStr "spa1")
                    "YEAR" _ _ Hs)).
    simpl. intros [H | [H | H]]; try discriminate H; exact H.
  - refine (eq_trans
              (proj1 (proj2 (get_energy_usage_checks_interval demo_world demo_state the_spa
                               the_api (JStr "spa1") "DAY"
                               {| year := 2020; month := 1; day := 5 |}
                               {| year := 2020; month := 2; day := 1 |} Hs))
                 (or_introl eq_refl) "tok" Hl) _).
    reflexivity.
  - refine (proj1 (proj2 (proj2 (get_energy_usage_checks_interval demo_world demo_state
                                   the_spa the_api (JStr "spa1") "DAY"
                                   {| year := 2020; month := 1; day := 5 |}
                                   {| year := 2020; month := 2; day := 1 |} Hs)) _ _));
      unfold valid_date; simpl; lia.
Defined.

(** ** No method but [login] writes to an object *)

Create HintDb heap.

Lemma ph_ret {A} (a : A) : preserves_heap (ret a).
Proof. intros w st. reflexivity. Qed.

Lemma ph_raise {A} e : preserves_heap (@raise A e).
Proof. intros w st. reflexivity. Qed.

Lemma ph_lift {A} (r : result A) : preserves_heap (lift r).
Proof. intros w st. reflexivity. Qed.

Lemma ph_bind {A B} (m : M A) (k : A -> M B) :
  preserves_heap m -> (forall a, preserves_heap (k a)) -> preserves_heap (bind m k).
Proof.
  intros Hm Hk w st. unfold bind. specialize (Hm w st).
  destruct (m w st) as [[a|e] st1]; cbn in Hm |- *.
  - rewrite Hk. exact Hm.
  - exact Hm.
Qed.

Lemma ph_getattr l name : preserves_heap (getattr l name).
Proof.
  intros w st. unfold getattr.
  destruct (heap st !! l) as [o|]; [destruct (find_attr o name)|]; reflexivity.
Qed.

Lemma ph_fmt v : preserves_heap (fmt v).
Proof. intros w st. reflexivity. Qed.

Lemma ph_getitem v k : preserves_heap (getitem v k).
Proof. apply ph_lift. Qed.

Lemma ph_py_assert b : preserves_heap (py_assert b).
Proof. destruct b; [apply ph_ret | apply ph_raise]. Qed.

Lemma ph_instance_of c v : preserves_heap (instance_of c v).
Proof.
  intros w st. unfold instance_of. destruct v; try reflexivity.
  destruct (heap st !! l) as [o|]; [|reflexivity].
  destruct c, (cls o); reflexivity.
Qed.

Lemma ph_requests_request method url headers body :
  preserves_heap (requests_request method url headers body).
Proof. intros w st. reflexivity. Qed.

Lemma ph_raise_for_status r : preserves_heap (raise_for_status r).
Proof. unfold raise_for_status. destruct (_ && _); [apply ph_raise | apply ph_ret]. Qed.

Lemma ph_response_json r : preserves_heap (response_json r).
Proof. unfold response_json. destruct (resp_body r); [apply ph_ret | apply ph_raise]. Qed.

#[local] Hint Resolve ph_ret ph_raise ph_lift ph_getattr ph_fmt ph_getitem ph_py_assert
  ph_instance_of ph_requests_request ph_raise_for_status ph_response_json : heap.

Ltac heap_frame :=
  repeat first [ solve [auto with heap] | apply ph_bind; [|intros] ].

Lemma ph_require_login self : preserves_heap (SmartTub._require_login self).
Proof.
  unfold SmartTub._require_login. heap_frame.
  destruct (py_truthy _); auto with heap.
Qed.

Lemma ph_headers self : preserves_heap (SmartTub._headers self).
Proof. unfold SmartTub._headers. heap_frame. Qed.

#[local] Hint Resolve ph_require_login ph_headers : heap.

Lemma ph_request self method path body :
  preserves_heap (SmartTub.request self method path body).
Proof. unfold SmartTub.request. heap_frame. Qed.

#[local] Hint Resolve ph_request : heap.

Lemma ph_spa_request self method resource body :
  preserves_heap (Spa.request self method resource body).
Proof. unfold Spa.request. heap_frame. Qed.

#[local] Hint Resolve ph_spa_request : heap.

(** ** Lights *)

Lemma light_set_raises w st light spa zone intensity mode :
  is_light st light spa zone ->
  SpaLight.set light intensity mode w st =
    (Raise (AttributeError "SpaLight" "LIGHT_MODES"), st).
Proof.
  intros (a & color & i & m & props & Hl). unfold SpaLight.set.
  erewrite bind_run by (eapply (getattr_missing _ _ _ _ _ Hl); reflexivity).
  reflexivity.
Qed.

(** C10.  On a [SpaLight] as the constructor builds it (attributes [_api],
    [spa], [zone], [color], [intensity], [mode], [properties]: no [id]),
    [toggle] raises [AttributeError] for [id] and makes no HTTP call.  Were
    there an [id], the call would be a POST to
    [spas/{spa id}/pumps/{id}/toggle], the toggle of a pump. *)
Theorem light_toggle_raises w st light spa api zone sid :
  is_light st light spa zone -> is_spa st spa api sid ->
  SpaLight.toggle light w st = (Raise (AttributeError "SpaLight" "id"), st) /\
  (forall st2 o id token,
     heap st2 !! light = Some o ->
     find_attr o "spa" = Some (PRef spa) -> find_attr o "id" = Some id ->
     is_spa st2 spa api sid -> logged_in st2 api token ->
     let rq := api_call "POST" ("spas/" ++ py_str w sid ++ "/pumps/" ++ py_str w id ++ "/toggle")
                 token JNull in
     SpaLight.toggle light w st2 =
       (discard (response_result (server w (trace st2) rq)), sent st2 rq)).
Proof.
  intros (a & color & i & m & props & Hl) Hs. split.
  - destruct Hs as (acc & b & md & p & Hs). unfold SpaLight.toggle.
    erewrite bind_run by (eapply getattr_run; [exact Hl | reflexivity]).
    cbn beta iota.
    erewrite bind_run by (eapply instance_of_run; [exact Hs | reflexivity | auto]).
    cbn beta iota.
    erewrite bind_run by (eapply (getattr_missing _ _ _ _ _ Hl); reflexivity).
    reflexivity.
  - intros st2 o id token Ho Hspa Hid Hs2 Hin rq. unfold SpaLight.toggle.
    erewrite bind_run by (eapply getattr_run; [exact Ho | exact Hspa]).
    cbn beta iota.
    destruct Hs2 as (acc & b & md & p & Hs2).
    erewrite bind_run by (eapply instance_of_run; [exact Hs2 | reflexivity | auto]).
    cbn beta iota.
    erewrite bind_run by (eapply getattr_run; [exact Ho | exact Hid]).
    cbn beta iota. unfold fmt at 1, bind at 1. cbn beta iota.
    apply discard_run.
    erewrite spa_request_sends by (try eassumption; do 4 eexists; exact Hs2).
    reflexivity.
Qed.

(** C10, run: the light of the demo session, as built and with an [id]
    added. *)
Lemma light_toggle_raises_witness :
  is_light demo_state the_light the_spa (JInt 1) /\
  is_spa demo_state the_spa the_api (JStr "spa1") /\
  SpaLight.toggle the_light demo_world demo_state =
    (Raise (AttributeError "SpaLight" "id"), demo_state) /\
  SpaLight.toggle the_light demo_world labelled_light_state =
    (Ok tt,
     sent labelled_light_state
       {| req_method := "POST";
          req_url := "https://api.smarttub.io/spas/spa1/pumps/L1/toggle";
          req_headers := [("Authorization", "Bearer tok")];
          req_json := JNull |}).
Proof.
  destruct (light_toggle_raises demo_world demo_state the_light the_spa the_api
              (JInt 1) (JStr "spa1") demo_is_light demo_is_spa) as (Hraise & Hpath).
  split; [exact demo_is_light|]. split; [exact demo_is_spa|]. split; [exact Hraise|].
  refine (eq_trans (Hpath labelled_light_state _ (JStr "L1") "tok" eq_refl eq_refl eq_refl _ _) _).
  - do 4 eexists. reflexivity.
  - eexists. split; [reflexivity|].
    split; [|split; [|split; [|eexists]]; reflexivity].
    split; [reflexivity|]. intros k Hk. simpl in Hk.
    repeat (destruct Hk as [<- | Hk]; [reflexivity|]). contradiction.
  - reflexivity.
Defined.

(** C3.  [SpaLight.set] reads [self.LIGHT_MODES], which is a constant of
    class [Spa] and not of [SpaLight]: on the light of the demo session
    every call raises [AttributeError] and sends nothing, the two the spec
    expects to succeed included. *)
Theorem light_set_never_sends :
  SpaLight.set the_light 0 "OFF" demo_world demo_state =
    (Raise (AttributeError "SpaLight" "LIGHT_MODES"), demo_state) /\
  SpaLight.set the_light 50 "BLUE" demo_world demo_state =
    (Raise (AttributeError "SpaLight" "LIGHT_MODES"), demo_state) /\
  SpaLight.set the_light 5 "OFF" demo_world demo_state =
    (Raise (AttributeError "SpaLight" "LIGHT_MODES"), demo_state).
Proof.
  repeat split; eapply light_set_raises, demo_is_light.
Qed.

(** ** [set_temperature_format] and [set_date_time] *)

Lemma set_temperature_format_raises w st spa api id temperature_format :
  is_spa st spa api id ->
  Spa.set_temperature_format spa temperature_format w st =
    (Raise (AttributeError "Spa" "TEMPERATURE_MODES"), st).
Proof.
  intros (account & brand & model & props & Hs). unfold Spa.set_temperature_format.
  erewrite bind_run by (eapply (getattr_missing _ _ _ _ _ Hs); reflexivity).
  reflexivity.
Qed.

(** C7.  [set_temperature_format] reads [self.TEMPERATURE_MODES]; the
    constant of the class is [TEMPERATURE_FORMATS].  On the spa of the demo
    session both formats raise [AttributeError] and nothing is sent. *)
Theorem set_temperature_format_never_sends :
  Spa.set_temperature_format the_spa "CELSIUS" demo_world demo_state =
    (Raise (AttributeError "Spa" "TEMPERATURE_MODES"), demo_state) /\
  Spa.set_temperature_format the_spa "FAHRENHEIT" demo_world demo_state =
    (Raise (AttributeError "Spa" "TEMPERATURE_MODES"), demo_state).
Proof.
  split; eapply set_temperature_format_raises, demo_is_spa.
Qed.

Lemma set_date_time_needs_one w st spa :
  Spa.set_date_time spa None None w st = (Raise AssertionError, st).
Proof. reflexivity. Qed.

(** With a date or a time, [set_date_time] makes one call: a POST with no
    body, to the path made of the spa's path and the text of the dictionary
    that was meant to be the body. *)
Lemma set_date_time_sends w st spa api id token date time :
  is_spa st spa api id -> logged_in st api token ->
  date <> None \/ time <> None ->
  let rq := api_call "POST"
              ("spas/" ++ py_str w id ++ "/" ++ py_str w (date_time_body date time))
              token JNull in
  Spa.set_date_time spa date time w st =
    (discard (response_result (server w (trace st) rq)), sent st rq).
Proof.
  intros Hs Hl Hdt rq. unfold Spa.set_date_time.
  assert (Hb : match date, time with None, None => false | _, _ => true end = true)
    by (destruct date, time; try reflexivity; destruct Hdt; congruence).
  rewrite Hb. unfold py_assert, ret, bind at 1. cbn beta iota zeta.
  apply discard_run.
  erewrite spa_request_sends by eassumption.
  subst rq. unfold date_time_body. destruct date, time; reflexivity.
Qed.

(** C6.  [set_date_time] ends with [self.request('POST', body)]: the
    dictionary lands in the path and the call has no body.  On the spa of
    the demo session, 2020-01-05 07:30:15 gives this call. *)
Theorem set_date_time_sends_no_body :
  Spa.set_date_time the_spa (Some {| year := 2020; month := 1; day := 5 |})
      (Some {| hour := 7; minute := 30; second := 15; microsecond := 0 |})
      demo_world demo_state =
    (Ok tt,
     sent demo_state
       {| req_method := "POST";
          req_url := "https://api.smarttub.io/spas/spa1/{'dateTimeConfig': {'date': '2020-01-05', 'time': '07:30'}}";
          req_headers := [("Authorization", "Bearer tok")];
          req_json := JNull |}) /\
  Spa.set_date_time the_spa None None demo_world demo_state =
    (Raise AssertionError, demo_state).
Proof.
  split; [|reflexivity].
  refine (eq_trans (set_date_time_sends demo_world demo_state the_spa the_api (JStr "spa1")
                      "tok" _ _ demo_is_spa demo_logged_in (or_introl _)) _).
  - discriminate.
  - reflexivity.
Qed.

(** ** [login] *)

Lemma dict_get_set {V} (d : dict V) k v k' :
  dict_get (dict_set d k v) k' = if String.eqb k k' then Some v else dict_get d k'.
Proof.
  induction d as [|[k0 v0] d IH]; cbn.
  - destruct (String.eqb k k'); reflexivity.
  - destruct (String.eqb_spec k0 k) as [->|Hne]; cbn.
    + destruct (String.eqb k k'); reflexivity.
    + rewrite IH. destruct (String.eqb_spec k0 k') as [->|Hne'].
      * destruct (String.eqb_spec k k') as [->|_]; [contradiction | reflexivity].
      * reflexivity.
Qed.

Lemma setattr_run l name v o w st :
  heap st !! l = Some o ->
  setattr l name v w st =
    (Ok tt, {| heap := <[l := set_attr o name v]> (heap st); trace := trace st |}).
Proof. unfold setattr. intros ->. reflexivity. Qed.

Lemma lookup_updated (h : list object) l o o' :
  h !! l = Some o -> <[l := o']> h !! l = Some o'.
Proof. intros H. apply list_lookup_insert_eq. eapply lookup_lt_Some, H. Qed.

Lemma is_client_set_attr o name v :
  is_client o -> ~ In name (map fst (class_attrs CSmartTub)) ->
  is_client (set_attr o name v).
Proof.
  intros [Hc Hn] Hname. split; [exact Hc|].
  intros k Hk. cbn. rewrite dict_get_set.
  destruct (String.eqb_spec name k) as [->|_]; [contradiction | auto].
Qed.

Lemma raise_for_status_run r w st :
  raise_for_status r w st =
    (if (400 <=? status_code r) && (status_code r <? 600)
     then Raise (HTTPError (status_code r) (resp_body r)) else Ok tt, st).
Proof. unfold raise_for_status. destruct (_ && _); reflexivity. Qed.

Lemma response_json_run r w st :
  response_json r w st =
    (match resp_body r with Some j => Ok j | None => Raise JSONDecodeError end, st).
Proof. unfold response_json. destruct (resp_body r); reflexivity. Qed.

Ltac not_a_constant :=
  let H := fresh in
  simpl; intros H;
  repeat (destruct H as [H | H]; [discriminate H|]); exact H.

(** C2.  When [login] returns, it has made one call, the password-grant
    POST to the authentication URL; the response was no 4xx or 5xx and had a
    JSON body [j]; [access_token] is [j['access_token']], a string;
    [access_token_data] is what [jwt.decode(token, verify=False)] gives for
    it and [account_id] is its entry under the account-id key; [expires_at]
    is the clock plus [j['expires_in']]; and [logged_in] is [True]. *)
Theorem login_populates_session w st self username password st' :
  (exists o, heap st !! self = Some o /\ is_client o) ->
  SmartTub.login self username password w st = (Ok tt, st') ->
  exists j token claims expires_in expires_at account_id,
    response_result (server w (trace st) (login_call username password)) = Ok j /\
    trace st' = (trace st ++ [login_call username password])%list /\
    py_getitem (PJson j) "access_token" = Ok (JStr token) /\
    jwt_decode w token = Some claims /\
    py_getitem (PJson claims) AUTH_ACCOUNT_ID_KEY = Ok account_id /\
    py_getitem (PJson j) "expires_in" = Ok expires_in /\
    py_float_add (clock w) expires_in = Ok expires_at /\
    attr st' self "access_token" = Some (PJson (JStr token)) /\
    attr st' self "access_token_data" = Some (PJson claims) /\
    attr st' self "account_id" = Some (PJson account_id) /\
    attr st' self "expires_at" = Some (PJson expires_at) /\
    attr st' self "logged_in" = Some (PJson (JBool true)) /\
    logged_in st' self token.
Proof.
  intros (o & Ho & Hcl) H. unfold SmartTub.login in H.
  erewrite bind_run in H by (eapply getattr_run; [exact Ho | eapply is_client_const; [exact Hcl | reflexivity]]).
  cbn beta iota in H.
  erewrite bind_run in H by (eapply getattr_run; [exact Ho | eapply is_client_const; [exact Hcl | reflexivity]]).
  cbn beta iota in H.
  erewrite bind_run in H by (eapply getattr_run; [exact Ho | eapply is_client_const; [exact Hcl | reflexivity]]).
  cbn beta iota in H.
  erewrite bind_run in H by (eapply getattr_run; [exact Ho | eapply is_client_const; [exact Hcl | reflexivity]]).
  cbn beta iota in H.
  unfold fmt at 1, bind at 1 in H. cbn beta iota in H.
  unfold to_json at 1 2 3, ret at 1 2 3 in H.
  unfold bind at 1 in H. cbn beta iota in H.
  unfold bind at 1 in H. cbn beta iota in H.
  unfold bind at 1 in H. cbn beta iota in H.
  unfold bind at 1, requests_request at 1 in H. cbn beta iota zeta in H.
  change {| req_method := "POST"; req_url := _; req_headers := []; req_json := _ |}
    with (login_call username password) in H.
  erewrite bind_run in H by apply raise_for_status_run.
  unfold response_result.
  destruct ((400 <=? _) && _); [discriminate H|]. cbn beta iota in H.
  erewrite bind_run in H by apply response_json_run.
  destruct (resp_body _) as [j|]; [|discriminate H]. cbn beta iota in H.
  unfold getitem at 1, lift at 1, bind at 1 in H.
  destruct (py_getitem j "access_token") as [tok|] eqn:Etok; [|discriminate H].
  erewrite bind_run in H by (eapply setattr_run; exact Ho).
  cbn [heap trace] in H. cbn beta iota in H.
  pose proof (lookup_updated _ _ _ (set_attr o "access_token" tok) Ho) as Ho1.
  erewrite bind_run in H
    by (eapply getattr_run;
        [exact Ho1 | unfold find_attr; cbn [attrs set_attr]; rewrite dict_get_set; reflexivity]).
  cbn beta iota in H.
  unfold jwt_decode_unverified at 1, bind at 1 in H.
  destruct tok as [| | | |token| |]; try discriminate H.
  destruct (jwt_decode w token) as [claims|] eqn:Eclaims; [|discriminate H].
  erewrite bind_run in H by (eapply setattr_run; exact Ho1).
  cbn [heap trace] in H. cbn beta iota in H.
  pose proof (lookup_updated _ _ _
                (set_attr (set_attr o "access_token" (JStr token)) "access_token_data" claims)
                Ho1) as Ho2.
  unfold time_time at 1, bind at 1 in H.
  unfold getitem at 1, lift at 1, bind at 1 in H.
  destruct (py_getitem j "expires_in") as [expires_in|] eqn:Eexp; [|discriminate H].
  unfold float_add at 1, lift at 1, bind at 1 in H.
  destruct (py_float_add (clock w) expires_in) as [expires_at|] eqn:Eat; [|discriminate H].
  erewrite bind_run in H by (eapply setattr_run; exact Ho2).
  cbn [heap trace] in H. cbn beta iota in H.
  match type of H with
  | context [<[self := set_attr ?x "expires_at" ?v]> _] =>
      pose proof (lookup_updated _ _ _ (set_attr x "expires_at" v) Ho2) as Ho3
  end.
  unfold getitem at 1, lift at 1, bind at 1 in H.
  destruct (py_getitem j "refresh_token") as [refresh_token|]; [|discriminate H].
  erewrite bind_run in H by (eapply setattr_run; exact Ho3).
  cbn [heap trace] in H. cbn beta iota in H.
  match type of H with
  | context [<[self := set_attr ?x "refresh_token" ?v]> _] =>
      pose proof (lookup_updated _ _ _ (set_attr x "refresh_token" v) Ho3) as Ho4
  end.
  unfold getitem at 1, lift at 1, bind at 1 in H.
  destruct (py_getitem j "token_type") as [token_type|]; [|discriminate H].
  unfold py_assert at 1, bind at 1 in H.
  destruct (py_eq_str token_type "Bearer"); [|discriminate H].
  unfold ret at 1 in H.
  erewrite bind_run in H
    by (eapply getattr_run;
        [exact Ho4 | unfold find_attr; cbn [attrs set_attr]; rewrite !dict_get_set; reflexivity]).
  cbn beta iota in H.
  erewrite bind_run in H
    by (eapply getattr_run;
        [exact Ho4
        | eapply is_client_const; [|reflexivity];
          repeat (apply is_client_set_attr; [|not_a_constant]); exact Hcl]).
  cbn beta iota in H.
  unfold fmt at 1, bind at 1 in H. cbn [py_str] in H.
  unfold getitem at 1, lift at 1, bind at 1 in H.
  match type of H with
  | context [py_getitem (PJson claims) ?k] =>
      destruct (py_getitem (PJson claims) k) as [account_id|] eqn:Eaid; [|discriminate H]
  end.
  erewrite bind_run in H by (eapply setattr_run; exact Ho4).
  cbn [heap trace] in H. cbn beta iota in H.
  match type of H with
  | context [<[self := set_attr ?x "account_id" ?v]> _] =>
      pose proof (lookup_updated _ _ _ (set_attr x "account_id" v) Ho4) as Ho5
  end.
  erewrite setattr_run in H by exact Ho5.
  cbn [heap trace] in H.
  match type of H with
  | context [<[self := set_attr ?x "logged_in" ?v]> _] =>
      pose proof (lookup_updated _ _ _ (set_attr x "logged_in" v) Ho5) as Ho6
  end.
  injection H as <-.
  exists j, token, claims, expires_in, expires_at, account_id.
  unfold attr. cbn [heap trace]. rewrite Ho6.
  unfold find_attr. cbn [attrs set_attr cls]. rewrite !dict_get_set.
  repeat (split; [first [reflexivity | assumption]|]).
  eexists. split; [exact Ho6|].
  split; [repeat (apply is_client_set_attr; [|not_a_constant]); exact Hcl|].
  cbn [attrs set_attr cls]. rewrite !dict_get_set.
  split; [reflexivity|]. split; [reflexivity|]. eexists. reflexivity.
Qed.

(** C2, run: the first login of the demo session. *)
Lemma login_populates_session_witness :
  (exists j token claims expires_in expires_at account_id,
     response_result (server demo_world (trace fresh_state)
                        (login_call "user@example.com" "secret")) = Ok j /\
     trace logged_in_state =
       (trace fresh_state ++ [login_call "user@example.com" "secret"])%list /\
     py_getitem (PJson j) "access_token" = Ok (JStr token) /\
     jwt_decode demo_world token = Some claims /\
     py_getitem (PJson claims) AUTH_ACCOUNT_ID_KEY = Ok account_id /\
     py_getitem (PJson j) "expires_in" = Ok expires_in /\
     py_float_add (clock demo_world) expires_in = Ok expires_at /\
     attr logged_in_state the_api "access_token" = Some (PJson (JStr token)) /\
     attr logged_in_state the_api "access_token_data" = Some (PJson claims) /\
     attr logged_in_state the_api "account_id" = Some (PJson account_id) /\
     attr logged_in_state the_api "expires_at" = Some (PJson expires_at) /\
     attr logged_in_state the_api "logged_in" = Some (PJson (JBool true)) /\
     logged_in logged_in_state the_api token) /\
  attr logged_in_state the_api "access_token" = Some (PJson (JStr "tok")) /\
  attr logged_in_state the_api "account_id" = Some (PJson (JStr "acct1")) /\
  attr logged_in_state the_api "expires_at" = Some (PJson (JFloat 1600086400%float)).
Proof.
  split; [|repeat split; reflexivity].
  apply (login_populates_session demo_world fresh_state the_api
           "user@example.com" "secret" logged_in_state).
  - eexists. split; [reflexivity|]. split; [reflexivity|].
    intros k Hk. simpl in Hk.
    repeat (destruct Hk as [<- | Hk]; [reflexivity|]). contradiction.
  - reflexivity.
Defined.

(** [login] does return when the response is as the API documents it. *)
Lemma login_succeeds w st self username password o d token claims account_id
    expires_in expires_at refresh_token :
  heap st !! self = Some o -> is_client o ->
  response_result (server w (trace st) (login_call username password)) = Ok (JDict d) ->
  dict_get d "access_token" = Some (JStr token) ->
  jwt_decode w token = Some claims ->
  py_getitem (PJson claims) AUTH_ACCOUNT_ID_KEY = Ok account_id ->
  dict_get d "expires_in" = Some expires_in ->
  py_float_add (clock w) expires_in = Ok expires_at ->
  dict_get d "refresh_token" = Some refresh_token ->
  dict_get d "token_type" = Some (JStr "Bearer") ->
  exists st', SmartTub.login self username password w st = (Ok tt, st').
Proof.
  intros Ho Hcl Hr Htok Hclaims Haid Hexp Hat Href Htype.
  unfold response_result in Hr.
  destruct ((400 <=? _) && _) eqn:Estatus; [discriminate Hr|].
  destruct (resp_body _) as [j|] eqn:Ebody; [|discriminate Hr].
  injection Hr as ->.
  eexists. unfold SmartTub.login.
  do 4 (erewrite bind_run
          by (eapply getattr_run;
              [exact Ho | eapply is_client_const; [exact Hcl | reflexivity]]);
        cbn beta iota).
  unfold fmt at 1, bind at 1. cbn beta iota.
  unfold to_json at 1 2 3, ret at 1 2 3.
  do 3 (unfold bind at 1; cbn beta iota).
  unfold bind at 1, requests_request at 1. cbn beta iota zeta.
  change {| req_method := "POST"; req_url := _; req_headers := []; req_json := _ |}
    with (login_call username password).
  erewrite bind_run by apply raise_for_status_run.
  rewrite Estatus. cbn beta iota.
  erewrite bind_run by apply response_json_run.
  rewrite Ebody. cbn beta iota.
  unfold getitem at 1, lift at 1, bind at 1. cbn [py_getitem]. rewrite Htok.
  erewrite bind_run by (eapply setattr_run; exact Ho).
  cbn [heap trace]. cbn beta iota.
  pose proof (lookup_updated _ _ _ (set_attr o "access_token" (JStr token)) Ho) as Ho1.
  erewrite bind_run
    by (eapply getattr_run;
        [exact Ho1 | unfold find_attr; cbn [attrs set_attr]; rewrite dict_get_set; reflexivity]).
  cbn beta iota.
  unfold jwt_decode_unverified at 1, bind at 1. rewrite Hclaims.
  erewrite bind_run by (eapply setattr_run; exact Ho1).
  cbn [heap trace]. cbn beta iota.
  pose proof (lookup_updated _ _ _
                (set_attr (set_attr o "access_token" (JStr token)) "access_token_data" claims)
                Ho1) as Ho2.
  unfold time_time at 1, bind at 1.
  unfold getitem at 1, lift at 1, bind at 1. cbn [py_getitem]. rewrite Hexp.
  unfold float_add at 1, lift at 1, bind at 1. rewrite Hat.
  erewrite bind_run by (eapply setattr_run; exact Ho2).
  cbn [heap trace]. cbn beta iota.
  match goal with
  | |- context [<[self := set_attr ?x "expires_at" ?v]> _] =>
      pose proof (lookup_updated _ _ _ (set_attr x "expires_at" v) Ho2) as Ho3
  end.
  unfold getitem at 1, lift at 1, bind at 1. cbn [py_getitem]. rewrite Href.
  erewrite bind_run by (eapply setattr_run; exact Ho3).
  cbn [heap trace]. cbn beta iota.
  match goal with
  | |- context [<[self := set_attr ?x "refresh_token" ?v]> _] =>
      pose proof (lookup_updated _ _ _ (set_attr x "refresh_token" v) Ho3) as Ho4
  end.
  unfold getitem at 1, lift at 1, bind at 1. cbn [py_getitem]. rewrite Htype.
  unfold py_assert at 1, bind at 1. cbn [py_eq_str]. rewrite String.eqb_refl.
  unfold ret at 1.
  erewrite bind_run
    by (eapply getattr_run;
        [exact Ho4 | unfold find_attr; cbn [attrs set_attr]; rewrite !dict_get_set; reflexivity]).
  cbn beta iota.
  erewrite bind_run
    by (eapply getattr_run;
        [exact Ho4
        | eapply is_client_const; [|reflexivity];
          repeat (apply is_client_set_attr; [|not_a_constant]); exact Hcl]).
  cbn beta iota.
  unfold fmt at 1, bind at 1. cbn [py_str].
  unfold getitem at 1, lift at 1, bind at 1.
  change "http://operation-link.com/account_id" with AUTH_ACCOUNT_ID_KEY.
  rewrite Haid.
  erewrite bind_run by (eapply setattr_run; exact Ho4).
  cbn [heap trace]. cbn beta iota.
  match goal with
  | |- context [<[self := set_attr ?x "account_id" ?v]> _] =>
      pose proof (lookup_updated _ _ _ (set_attr x "account_id" v) Ho4) as Ho5
  end.
  erewrite setattr_run by exact Ho5.
  reflexivity.
Qed.

(** ** Before [login] *)

Lemma light_toggle_missing_id w st light spa api zone sid :
  is_light st light spa zone -> is_spa st spa api sid ->
  SpaLight.toggle light w st = (Raise (AttributeError "SpaLight" "id"), st).
Proof.
  intros (a & color & i & m & props & Hl) (acc & b & md & p & Hs).
  unfold SpaLight.toggle.
  erewrite bind_run by (eapply getattr_run; [exact Hl | reflexivity]).
  cbn beta iota.
  erewrite bind_run by (eapply instance_of_run; [exact Hs | reflexivity | auto]).
  cbn beta iota.
  erewrite bind_run by (eapply (getattr_missing _ _ _ _ _ Hl); reflexivity).
  reflexivity.
Qed.





(** ** [get_spas] and [get_spa] *)

Lemma extends_refl st : extends st st.
Proof. exists []. symmetry. apply app_nil_r. Qed.

Lemma extends_trans st1 st2 st3 : extends st1 st2 -> extends st2 st3 -> extends st1 st3.
Proof.
  intros [a Ha] [b Hb]. exists (a ++ b)%list. rewrite Hb, Ha. symmetry. apply app_assoc.
Qed.

Lemma extends_lookup st st' l o :
  extends st st' -> heap st !! l = Some o -> heap st' !! l = Some o.
Proof. intros [a ->] H. apply lookup_app_l_Some, H. Qed.

Lemma is_account_extends st st' acct api id :
  extends st st' -> is_account st acct api id -> is_account st' acct api id.
Proof. intros He (e & p & H). exists e, p. eapply extends_lookup; eassumption. Qed.

Lemma is_spa_extends st st' spa api id :
  extends st st' -> is_spa st spa api id -> is_spa st' spa api id.
Proof.
  intros He (a & b & m & p & H). exists a, b, m, p. eapply extends_lookup; eassumption.
Qed.


Lemma logged_in_extends st st' api token :
  extends st st' -> logged_in st api token -> logged_in st' api token.
Proof.
  intros He (o & Ho & H). exists o. split; [|exact H].
  eapply extends_lookup; eassumption.
Qed.

Lemma init_spa_inv _api account j w st l st' :
  Init.Spa _api account j w st = (Ok l, st') ->
  exists props id brand model,
    j = JDict props /\
    dict_get props "id" = Some id /\
    dict_get props "brand" = Some brand /\
    dict_get props "model" = Some model /\
    l = length (heap st) /\
    st' = {| heap := heap st ++ [spa_object _api account id brand model props];
             trace := trace st |}.
Proof.
  unfold Init.Spa, kwargs. intros H.
  destruct j as [| | | | | |props]; try discriminate H.
  unfold bind at 1 in H.
  destruct (existsb _ props); [discriminate H|]. unfold ret at 1 in H.
  unfold getitem, lift, bind, new in H. cbn [py_getitem] in H.
  destruct (dict_get props "id") as [id|] eqn:Ei; [|discriminate H].
  destruct (dict_get props "brand") as [brand|] eqn:Eb; [|discriminate H].
  destruct (dict_get props "model") as [model|] eqn:Em; [|discriminate H].
  injection H as <- <-. exists props, id, brand, model.
  repeat (split; [first [reflexivity | assumption]|]). reflexivity.
Qed.



Lemma init_spa_raises _api account j w st e st' :
  Init.Spa _api account j w st = (Raise e, st') -> st' = st.
Proof.
  unfold Init.Spa, kwargs.
  destruct j as [| | | | | |d]; try (intros [= _ <-]; reflexivity).
  unfold bind at 1.
  destruct (existsb _ d); [intros [= _ <-]; reflexivity|]. unfold ret at 1.
  unfold getitem, lift, bind, new. cbn [py_getitem].
  destruct (dict_get d "id"); [|intros [= _ <-]; reflexivity].
  destruct (dict_get d "brand"); [|intros [= _ <-]; reflexivity].
  destruct (dict_get d "model"); [|intros [= _ <-]; reflexivity].
  discriminate.
Qed.

(** [get_spa] makes its one call, and hands the answer to the constructor. *)
Lemma get_spa_outcome w st acct api id token spa_id :
  is_account st acct api id -> logged_in st api token ->
  Account.get_spa acct spa_id w st =
    match response_result (server w (trace st) (spa_call w token spa_id)) with
    | Ok j => Init.Spa (PRef api) (PRef acct) j w (sent st (spa_call w token spa_id))
    | Raise e => (Raise e, sent st (spa_call w token spa_id))
    end.
Proof.
  intros Ha Hl.
  erewrite account_get_spa_delegates by eauto.
  erewrite bind_run by (eapply request_sends; exact Hl). reflexivity.
Qed.




Lemma Forall2_In_left {A B} (P : A -> B -> Prop) l1 l2 a :
  Forall2 P l1 l2 -> In a l1 -> exists b, P a b.
Proof.
  induction 1 as [|x y l1 l2 Hxy _ IH]; intros Hin; [contradiction|].
  destruct Hin as [<-|Hin]; [exists y; exact Hxy | apply IH, Hin].
Qed.

Lemma response_result_body r j : response_result r = Ok j -> resp_body r = Some j.
Proof.
  unfold response_result. destruct (_ && _); [discriminate|].
  destruct (resp_body r); [intros [= ->]; reflexivity | discriminate].
Qed.



(** ** Error responses *)

Lemma response_result_error r :
  400 <= status_code r < 600 ->
  response_result r = Raise (status_error r).
Proof.
  intros [H1 H2]. unfold response_result, status_error.
  rewrite (proj2 (Z.leb_le _ _) H1), (proj2 (Z.ltb_lt _ _) H2). reflexivity.
Qed.

Lemma raises_bind {A B} (m : M A) (k : A -> M B) w st rq :
  raises_on_error m w st rq -> raises_on_error (bind m k) w st rq.
Proof. intros H He. erewrite bind_run by exact (H He). reflexivity. Qed.

Lemma request_raises w st api token method path body :
  logged_in st api token ->
  raises_on_error (SmartTub.request api method path body) w st
    (api_call method path token body).
Proof.
  intros Hl He. erewrite request_sends by eassumption.
  rewrite response_result_error by exact He. reflexivity.
Qed.

Lemma spa_request_raises w st spa api id token method resource body :
  is_spa st spa api id -> logged_in st api token ->
  raises_on_error (Spa.request spa method resource body) w st
    (spa_api_call w token id method resource body).
Proof.
  intros Hs Hl He. erewrite spa_request_sends by eassumption.
  unfold spa_api_call in *. rewrite response_result_error by exact He. reflexivity.
Qed.

Lemma get_account_raises w st api token account_id :
  logged_in st api token -> attr st api "account_id" = Some account_id ->
  raises_on_error (SmartTub.get_account api) w st
    (api_call "GET" ("accounts/" ++ py_str w account_id) token JNull).
Proof.
  intros (o & Ho & Hcl & Hl & Ht & _) Ha He.
  pose proof (is_client_const o "API_BASE" _ Hcl eq_refl) as Hb.
  unfold attr in Ha. rewrite Ho in Ha.
  unfold SmartTub.get_account, SmartTub._require_login, SmartTub._headers.
  erewrite bind_run
    by (erewrite bind_run
          by (eapply getattr_run; [exact Ho | unfold find_attr; rewrite Hl; reflexivity]);
        reflexivity).
  cbn beta iota.
  erewrite bind_run by (eapply getattr_run; [exact Ho | exact Hb]).
  cbn beta iota. unfold fmt at 1. unfold bind at 1. cbn beta iota.
  erewrite bind_run by (eapply getattr_run; [exact Ho | exact Ha]).
  cbn beta iota. unfold fmt at 1. unfold bind at 1. cbn beta iota.
  erewrite bind_run
    by (erewrite bind_run
          by (eapply getattr_run; [exact Ho | unfold find_attr; rewrite Ht; reflexivity]);
        reflexivity).
  cbn beta iota. unfold bind at 1, requests_request at 1. cbn beta iota zeta.
  change {| req_method := "GET"; req_url := _; req_headers := _; req_json := JNull |}
    with (api_call "GET" ("accounts/" ++ py_str w account_id) token JNull).
  erewrite bind_run by apply raise_for_status_run.
  destruct He as [H1 H2].
  rewrite (proj2 (Z.leb_le _ _) H1), (proj2 (Z.ltb_lt _ _) H2). reflexivity.
Qed.

(** *** The calls of [get_spas] *)

(** A log that ends with the call [c] made after [t], split at a call made
    after [t]: that call is [c]. *)
Lemma only_call {A} (t : list A) c history rq rest :
  (t ++ [c])%list = (history ++ rq :: rest)%list ->
  (length t <= length history)%nat ->
  history = t /\ rq = c /\ rest = [].
Proof.
  intros E Hlen.
  assert (Hl := f_equal length E). rewrite !length_app in Hl. cbn in Hl.
  destruct rest as [|x rest]; [|cbn in Hl; lia].
  apply app_inj_tail in E as [-> ->]. auto.
Qed.

(** The same for a log that goes on after [c]: the call is [c], or it was
    made after [c]. *)
Lemma later_call {A} (t : list A) c calls history rq rest :
  (t ++ c :: calls)%list = (history ++ rq :: rest)%list ->
  (length t <= length history)%nat ->
  (history = t /\ rq = c) \/ (length (t ++ [c]) <= length history)%nat.
Proof.
  intros E Hlen.
  destruct (Nat.eq_dec (length t) (length history)) as [Heq|Hne].
  - left. apply app_inj_1 in E as [-> E]; [|exact Heq].
    injection E as -> _. auto.
  - right. rewrite length_app. cbn. lia.
Qed.

(** A call answered with an error status was not answered with a result. *)
Lemma error_is_no_result r j :
  400 <= status_code r < 600 -> response_result r = Ok j -> False.
Proof. intros He Hr. rewrite response_result_error in Hr by exact He. discriminate Hr. Qed.

(** The second phase of [get_spas] stops at the first call that is answered
    with an error status, and raises it. *)
Lemma fetch_each_error w acct api id token infos :
  forall st r st',
    is_account st acct api id -> logged_in st api token ->
    for_each (fun spa_info : json =>
                spa_id <- getitem spa_info "id" ;; Account.get_spa acct spa_id)
      infos w st = (r, st') ->
    extends st st' /\
    (exists calls, trace st' = (trace st ++ calls)%list) /\
    (forall history rq rest,
       trace st' = (history ++ rq :: rest)%list ->
       (length (trace st) <= length history)%nat ->
       400 <= status_code (server w history rq) < 600 ->
       rest = [] /\ r = Raise (status_error (server w history rq))).
Proof.
  assert (Hnone : forall (st : state) history (rq : http_request) rest,
             trace st = (history ++ rq :: rest)%list ->
             (length (trace st) <= length history)%nat -> False).
  { intros st history rq rest E Hlen. apply (f_equal length) in E.
    rewrite length_app in E. cbn in E. lia. }
  induction infos as [|info infos IH]; intros st r st' Ha Hl H.
  - injection H as <- <-.
    split; [apply extends_refl|]. split; [exists []; symmetry; apply app_nil_r|].
    intros history rq rest E Hlen _. exfalso. eapply Hnone; eassumption.
  - cbn [for_each] in H.
    unfold getitem at 1, lift at 1 in H. unfold bind at 1 2 in H.
    destruct (py_getitem info "id") as [sid|e0] eqn:Esid.
    2:{ injection H as <- <-.
        split; [apply extends_refl|]. split; [exists []; symmetry; apply app_nil_r|].
        intros history rq rest E Hlen _. exfalso. eapply Hnone; eassumption. }
    erewrite get_spa_outcome in H by eassumption.
    set (c := spa_call w token sid) in *.
    destruct (response_result (server w (trace st) c)) as [j|e1] eqn:Er.
    2:{ injection H as <- <-.
        split; [exists []; symmetry; apply app_nil_r|]. split; [exists [c]; reflexivity|].
        intros history rq rest E Hlen He. cbn [trace sent] in E.
        apply only_call in E as (-> & -> & ->); [|exact Hlen].
        split; [reflexivity|].
        rewrite response_result_error in Er by exact He. congruence. }
    destruct (Init.Spa (PRef api) (PRef acct) j w (sent st c)) as [[spa|e2] st1] eqn:Einit.
    2:{ apply init_spa_raises in Einit as ->. injection H as <- <-.
        split; [exists []; symmetry; apply app_nil_r|]. split; [exists [c]; reflexivity|].
        intros history rq rest E Hlen He. cbn [trace sent] in E.
        apply only_call in E as (-> & -> & ->); [|exact Hlen].
        exfalso. eapply error_is_no_result; eassumption. }
    apply init_spa_inv in Einit as (props & i & b & m & -> & _ & _ & _ & -> & ->).
    set (st1 := {| heap := (heap (sent st c) ++ [spa_object (PRef api) (PRef acct) i b m props])%list;
                   trace := trace (sent st c) |}) in *.
    assert (He1 : extends st st1) by (eexists; reflexivity).
    unfold bind at 1 in H.
    destruct (for_each _ infos w st1) as [r' st2] eqn:Erest.
    destruct (IH st1 r' st2 (is_account_extends _ _ _ _ _ He1 Ha)
                (logged_in_extends _ _ _ _ He1 Hl) Erest)
      as (He2 & (calls & Hcalls) & Hlast).
    assert (Hst : st' = st2) by (destruct r'; injection H as _ <-; reflexivity).
    subst st'.
    assert (Htrace : trace st2 = (trace st ++ c :: calls)%list)
      by (rewrite Hcalls; cbn [trace st1 sent]; rewrite <- app_assoc; reflexivity).
    split; [eapply extends_trans; eassumption|].
    split; [exists (c :: calls); exact Htrace|].
    intros history rq rest E Hlen He.
    rewrite Htrace in E.
    destruct (later_call _ _ _ _ _ _ E Hlen) as [[-> ->] | Hlater].
    + exfalso. eapply error_is_no_result; eassumption.
    + rewrite <- Htrace in E.
      destruct (Hlast history rq rest E Hlater He) as (-> & ->).
      split; [reflexivity|]. injection H as <-. reflexivity.
Qed.

(** Whichever call of [get_spas] is answered with an error status, it is
    the last one [get_spas] makes, and [get_spas] raises it; the objects
    that were there are as they were. *)
Lemma get_spas_error w st acct api id token r st' :
  is_account st acct api id -> logged_in st api token ->
  Account.get_spas acct w st = (r, st') ->
  extends st st' /\
  (forall history rq rest,
     trace st' = (history ++ rq :: rest)%list ->
     (length (trace st) <= length history)%nat ->
     400 <= status_code (server w history rq) < 600 ->
     rest = [] /\ r = Raise (status_error (server w history rq))).
Proof.
  intros Ha Hl H.
  erewrite account_get_spas_delegates in H by eauto.
  erewrite bind_run in H by (eapply request_sends; exact Hl).
  set (c := api_call "GET" ("spas?ownerId=" ++ py_str w id) token JNull) in *.
  assert (Hstop : forall e, (r, st') = (Raise e, sent st c) ->
            extends st st' /\
            (forall history rq rest,
               trace st' = (history ++ rq :: rest)%list ->
               (length (trace st) <= length history)%nat ->
               400 <= status_code (server w history rq) < 600 ->
               rest = [] /\ rq = c /\ history = trace st /\ r = Raise e)).
  { intros e [= -> ->]. split; [exists []; symmetry; apply app_nil_r|].
    intros history rq rest E Hlen _. cbn [trace sent] in E.
    apply only_call in E as (-> & -> & ->); [|exact Hlen]. auto. }
  destruct (response_result (server w (trace st) c)) as [j|e] eqn:Er.
  2:{ destruct (Hstop e (eq_sym H)) as (Hext & Hlast). split; [exact Hext|].
      intros history rq rest E Hlen He.
      destruct (Hlast history rq rest E Hlen He) as (-> & -> & -> & ->).
      split; [reflexivity|].
      rewrite response_result_error in Er by exact He. congruence. }
  unfold getitem at 1, lift at 1, bind at 1 in H.
  destruct (py_getitem j "content") as [content|e] eqn:Ec.
  2:{ destruct (Hstop e (eq_sym H)) as (Hext & Hlast). split; [exact Hext|].
      intros history rq rest E Hlen He.
      destruct (Hlast history rq rest E Hlen He) as (-> & -> & -> & ->).
      exfalso. eapply error_is_no_result; eassumption. }
  unfold py_iter at 1, lift at 1, bind at 1 in H.
  destruct (py_items content) as [infos|e] eqn:Ei.
  2:{ destruct (Hstop e (eq_sym H)) as (Hext & Hlast). split; [exact Hext|].
      intros history rq rest E Hlen He.
      destruct (Hlast history rq rest E Hlen He) as (-> & -> & -> & ->).
      exfalso. eapply error_is_no_result; eassumption. }
  assert (Ha1 : is_account (sent st c) acct api id) by exact Ha.
  assert (Hl1 : logged_in (sent st c) api token) by exact Hl.
  destruct (fetch_each_error w acct api id token infos _ _ _ Ha1 Hl1 H)
    as ((added & Hadded) & (calls & Hcalls) & Hlast).
  split; [exists added; exact Hadded|].
  intros history rq rest E Hlen He.
  assert (Htrace : trace st' = (trace st ++ c :: calls)%list)
    by (rewrite Hcalls; cbn [trace sent]; rewrite <- app_assoc; reflexivity).
  rewrite Htrace in E.
  destruct (later_call _ _ _ _ _ _ E Hlen) as [[-> ->] | Hlater].
  - exfalso. eapply error_is_no_result; eassumption.
  - rewrite <- Htrace in E. exact (Hlast history rq rest E Hlater He).
Qed.

(** C9 (as amended).  No mutator writes to an object: whatever the outcome
    of [set_secondary_filtration_mode], [set_heat_mode], [set_temperature],
    [toggle_clearray], [set_temperature_format], [set_date_time],
    [SpaPump.toggle] or [SpaLight.set], the heap is what it was.  And when
    the API answers the call that a method of a logged-in client makes with
    a 4xx or a 5xx status, whatever it would answer to other calls, the
    method raises [HTTPError] with that status and response, no other call
    having been made and the heap being what it was.  The call is named for
    each method that makes one.  [get_spas] makes several: whichever of them
    is answered so is its last, [get_spas] raises that answer, and the
    objects that were there are unchanged. *)
Theorem mutators_write_no_object :
  (forall spa mode, preserves_heap (Spa.set_secondary_filtration_mode spa mode)) /\
  (forall spa mode, preserves_heap (Spa.set_heat_mode spa mode)) /\
  (forall spa temp_c, preserves_heap (Spa.set_temperature spa temp_c)) /\
  (forall spa str, preserves_heap (Spa.toggle_clearray spa str)) /\
  (forall spa temperature_format,
     preserves_heap (Spa.set_temperature_format spa temperature_format)) /\
  (forall spa date time, preserves_heap (Spa.set_date_time spa date time)) /\
  (forall pump, preserves_heap (SpaPump.toggle pump)) /\
  (forall light intensity mode, preserves_heap (SpaLight.set light intensity mode)) /\
  (forall w st api token,
     logged_in st api token ->
     (forall method path body,
        raises_on_error (SmartTub.request api method path body) w st
          (api_call method path token body)) /\
     (forall account_id, attr st api "account_id" = Some account_id ->
        raises_on_error (SmartTub.get_account api) w st
          (api_call "GET" ("accounts/" ++ py_str w account_id) token JNull)) /\
     (forall acct id, is_account st acct api id ->
        raises_on_error (Account.get_spas acct) w st
          (api_call "GET" ("spas?ownerId=" ++ py_str w id) token JNull) /\
        (forall spa_id,
           raises_on_error (Account.get_spa acct spa_id) w st (spa_call w token spa_id)) /\
        (forall r st' history rq rest,
           Account.get_spas acct w st = (r, st') ->
           trace st' = (history ++ rq :: rest)%list ->
           (length (trace st) <= length history)%nat ->
           400 <= status_code (server w history rq) < 600 ->
           rest = [] /\ r = Raise (status_error (server w history rq)) /\ extends st st')) /\
     (forall spa id, is_spa st spa api id ->
        (forall method resource body,
           raises_on_error (Spa.request spa method resource body) w st
             (spa_api_call w token id method resource body)) /\
        raises_on_error (Spa.get_status spa) w st
          (spa_api_call w token id "GET" (JStr "status") JNull) /\
        raises_on_error (Spa.get_pumps spa) w st
          (spa_api_call w token id "GET" (JStr "pumps") JNull) /\
        raises_on_error (Spa.get_lights spa) w st
          (spa_api_call w token id "GET" (JStr "lights") JNull) /\
        raises_on_error (Spa.get_errors spa) w st
          (spa_api_call w token id "GET" (JStr "errors") JNull) /\
        raises_on_error (Spa.get_reminders spa) w st
          (spa_api_call w token id "GET" (JStr "reminders") JNull) /\
        raises_on_error (Spa.get_debug_status spa) w st
          (spa_api_call w token id "GET" (JStr "debugStatus") JNull) /\
        (forall temp_c,
           raises_on_error (Spa.set_temperature spa temp_c) w st
             (spa_api_call w token id "PATCH" (JStr "config")
                (JDict [("setTemperature", temp_c)]))) /\
        (forall str,
           raises_on_error (Spa.toggle_clearray spa str) w st
             (spa_api_call w token id "POST" (JStr "clearray/toggle") JNull)) /\
        (forall mode, In mode ["ECONOMY"; "DAY"; "AUTO"] ->
           raises_on_error (Spa.set_heat_mode spa mode) w st
             (spa_api_call w token id "PATCH" (JStr "config")
                (JDict [("heatMode", JStr mode)]))) /\
        (forall mode, In mode ["FREQUENT"; "INFREQUENT"; "AWAY"] ->
           raises_on_error (Spa.set_secondary_filtration_mode spa mode) w st
             (spa_api_call w token id "PATCH" (JStr "config")
                (JDict [("secondaryFiltrationConfig", JStr mode)]))) /\
        (forall interval start_date end_date, In interval ["DAY"; "MONTH"] ->
           raises_on_error (Spa.get_energy_usage spa interval start_date end_date) w st
             (spa_api_call w token id "POST" (JStr "energyUsage")
                (JDict [ ("start", JStr (date_isoformat start_date));
                         ("end", JStr (date_isoformat end_date));
                         ("interval", JStr interval) ]))) /\
        (forall date time, date <> None \/ time <> None ->
           raises_on_error (Spa.set_date_time spa date time) w st
             (spa_api_call w token id "POST" (date_time_body date time) JNull)) /\
        (forall pump pid, is_pump st pump spa pid ->
           raises_on_error (SpaPump.toggle pump) w st
             (spa_api_call w token id "POST"
                (JStr ("pumps/" ++ py_str w pid ++ "/toggle")) JNull)))).
Proof.
  split; [intros; unfold Spa.set_secondary_filtration_mode; heap_frame|].
  split; [intros; unfold Spa.set_heat_mode; heap_frame|].
  split; [intros; unfold Spa.set_temperature; heap_frame|].
  split; [intros; unfold Spa.toggle_clearray; heap_frame|].
  split; [intros; unfold Spa.set_temperature_format; heap_frame|].
  split; [intros; unfold Spa.set_date_time; heap_frame|].
  split; [intros; unfold SpaPump.toggle; heap_frame|].
  split; [intros; unfold SpaLight.set; heap_frame|].
  intros w st api token Hl.
  split; [intros; apply request_raises, Hl|].
  split; [intros; eapply get_account_raises; eassumption|].
  split.
  { intros acct id Ha. split; [|split].
    - intros He. erewrite account_get_spas_delegates by eauto.
      apply raises_bind; [apply request_raises, Hl | exact He].
    - intros spa_id He. erewrite account_get_spa_delegates by eauto.
      apply raises_bind; [apply request_raises, Hl | exact He].
    - intros r st' history rq rest Hrun E Hlen He.
      destruct (get_spas_error _ _ _ _ _ _ _ _ Ha Hl Hrun) as (Hext & Hlast).
      destruct (Hlast history rq rest E Hlen He) as (-> & ->). auto. }
  intros spa id Hs.
  assert (Hr : forall method resource body,
             raises_on_error (Spa.request spa method resource body) w st
               (spa_api_call w token id method resource body))
    by (intros; eapply spa_request_raises; eassumption).
  split; [exact Hr|].
  split; [apply Hr|].
  split; [apply raises_bind, Hr|].
  split; [apply raises_bind, Hr|].
  split; [apply raises_bind, Hr|].
  split; [apply raises_bind, Hr|].
  split; [apply raises_bind, Hr|].
  split; [intros; apply raises_bind, Hr|].
  split; [intros; apply raises_bind, Hr|].
  split.
  { intros mode Hin He. unfold Spa.set_heat_mode.
    erewrite spa_validate by (try eassumption; reflexivity).
    rewrite (proj2 (existsb_eqb_In _ _)) by assumption.
    apply raises_bind; [apply Hr | exact He]. }
  split.
  { intros mode Hin He. unfold Spa.set_secondary_filtration_mode.
    erewrite spa_validate by (try eassumption; reflexivity).
    rewrite (proj2 (existsb_eqb_In _ _)) by assumption.
    apply raises_bind; [apply Hr | exact He]. }
  split.
  { intros interval start_date end_date Hin He. unfold Spa.get_energy_usage.
    erewrite spa_validate_interval by eassumption.
    rewrite (proj2 (existsb_eqb_In _ _)) by assumption.
    apply raises_bind; [apply Hr | exact He]. }
  split.
  { intros date time Hdt He.
    erewrite set_date_time_sends by eassumption.
    unfold spa_api_call in He |- *.
    rewrite response_result_error by exact He. reflexivity. }
  intros pump pid Hp He.
  erewrite pump_toggle_delegates by (try eassumption; eauto).
  apply raises_bind; [apply Hr | exact He].
Qed.

(** C9, run: the demo session.  Its API has nothing at [nope] and answers
    404 there, while it answers other calls; an API that answers 401 or 500;
    and an API that lists [spa1] and answers 503 when asked for it. *)
Lemma mutators_write_no_object_witness :
  heap (snd (Spa.set_heat_mode the_spa "AUTO" demo_world demo_state)) = heap demo_state /\
  SmartTub.request the_api "GET" "nope" JNull demo_world demo_state =
    (Raise (HTTPError 404 None), sent demo_state (api_call "GET" "nope" "tok" JNull)) /\
  SmartTub.get_account the_api (world_answering 401 None) demo_state =
    (Raise (HTTPError 401 None),
     sent demo_state (api_call "GET" "accounts/acct1" "tok" JNull)) /\
  Spa.set_heat_mode the_spa "AUTO" (world_answering 500 None) demo_state =
    (Raise (HTTPError 500 None),
     sent demo_state
       (api_call "PATCH" "spas/spa1/config" "tok" (JDict [("heatMode", JStr "AUTO")]))) /\
  SpaPump.toggle the_pump (world_answering 500 None) demo_state =
    (Raise (HTTPError 500 None),
     sent demo_state (api_call "POST" "spas/spa1/pumps/P1/toggle" "tok" JNull)) /\
  fst (Account.get_spas the_account unavailable_spa_world account_state) =
    Raise (HTTPError 503 None).
Proof.
  destruct mutators_write_no_object as (_ & Hheat & _ & _ & _ & _ & _ & _ & Herr).
  split; [apply Hheat|].
  split.
  { destruct (Herr demo_world demo_state the_api "tok" demo_logged_in) as (Hreq & _).
    refine (eq_trans (Hreq "GET" "nope" JNull _) _); [simpl; lia | reflexivity]. }
  split.
  { destruct (Herr (world_answering 401 None) demo_state the_api "tok" demo_logged_in)
      as (_ & Hacc & _).
    refine (eq_trans (Hacc (PJson (JStr "acct1")) eq_refl _) _); [simpl; lia | reflexivity]. }
  destruct (Herr (world_answering 500 None) demo_state the_api "tok" demo_logged_in)
    as (_ & _ & _ & Hspa).
  destruct (Hspa the_spa (JStr "spa1") demo_is_spa)
    as (_ & _ & _ & _ & _ & _ & _ & _ & _ & Hmode & _ & _ & _ & Hpump).
  split.
  { refine (eq_trans (Hmode "AUTO" _ _) _); [simpl; tauto | simpl; lia | reflexivity]. }
  split.
  { refine (eq_trans (Hpump the_pump (JStr "P1") demo_is_pump _) _);
      [simpl; lia | reflexivity]. }
  assert (Ha : is_account account_state the_account the_api (JStr "acct1"))
    by (do 2 eexists; reflexivity).
  assert (Hl : logged_in account_state the_api "tok")
    by (destruct demo_logged_in as (o & Ho & H); exists o; split; [exact Ho | exact H]).
  destruct (Herr unavailable_spa_world account_state the_api "tok" Hl) as (_ & _ & Hacct & _).
  destruct (Hacct the_account (JStr "acct1") Ha) as (_ & _ & Hspas).
  destruct (Hspas (fst (Account.get_spas the_account unavailable_spa_world account_state))
              unavailable_state
              (trace account_state ++ [api_call "GET" "spas?ownerId=acct1" "tok" JNull])%list
              (api_call "GET" "spas/spa1" "tok" JNull) [])
    as (_ & Hraised & _).
  - reflexivity.
  - reflexivity.
  - simpl. lia.
  - simpl. lia.
  - exact Hraised.
Defined.

(** C9 as stated fails: a response outside 2xx need not raise.  A 302 with a
    JSON body is returned to the caller as a result. *)
Lemma redirect_response_is_returned :
  logged_in demo_state the_api "tok" /\
  status_code (server (world_answering 302 (Some (JDict [])))
                 (trace demo_state) (api_call "GET" "spas/spa1" "tok" JNull)) = 302 /\
  SmartTub.request the_api "GET" "spas/spa1" JNull
      (world_answering 302 (Some (JDict []))) demo_state =
    (Ok (JDict []), sent demo_state (api_call "GET" "spas/spa1" "tok" JNull)) /\
  ~ fails_with_status (SmartTub.request the_api "GET" "spas/spa1" JNull)
      (world_answering 302 (Some (JDict []))) demo_state.
Proof.
  split; [exact demo_logged_in|]. split; [reflexivity|].
  assert (E : SmartTub.request the_api "GET" "spas/spa1" JNull
                (world_answering 302 (Some (JDict []))) demo_state =
              (Ok (JDict []), sent demo_state (api_call "GET" "spas/spa1" "tok" JNull)))
    by reflexivity.
  split; [exact E|].
  intros [rq H]. rewrite E in H. discriminate H.
Qed.


(** * Further properties *)

(** ** Frames *)

#[local] Instance same_trace_frame : Frame same_trace.
Proof.
  split; unfold same_trace; [reflexivity | intros ? ? ? H1 H2; congruence].
Qed.

#[local] Instance extends_frame : Frame extends.
Proof. split; [exact extends_refl | exact extends_trans]. Qed.

#[local] Instance same_but_frame l : Frame (same_but l).
Proof.
  split.
  - intros st. split; [reflexivity | reflexivity].
  - intros st1 st2 st3 [L1 H1] [L2 H2]. split; [congruence|].
    intros l' Hl. rewrite H2, H1 by exact Hl. reflexivity.
Qed.

Create HintDb frame.

Section Respects.
Context (R : state -> state -> Prop) `{Frame R}.

Lemma respects_stateless {A} (m : M A) : stateless m -> respects R m.
Proof. intros Hm w st. rewrite Hm. apply frame_refl. Qed.

Lemma respects_bind {A B} (m : M A) (k : A -> M B) :
  respects R m -> (forall a, respects R (k a)) -> respects R (bind m k).
Proof.
  intros Hm Hk w st. unfold bind. specialize (Hm w st).
  destruct (m w st) as [[a|e] st1]; cbn in Hm |- *; [|exact Hm].
  eapply frame_trans; [exact Hm | apply Hk].
Qed.

Lemma respects_for_each {A B} (f : A -> M B) l :
  (forall a, respects R (f a)) -> respects R (for_each f l).
Proof.
  intros Hf. induction l as [|x l IH]; cbn [for_each].
  - apply respects_stateless. intros w st. reflexivity.
  - apply respects_bind; [apply Hf|]. intros y.
    apply respects_bind; [exact IH|]. intros ys.
    apply respects_stateless. intros w st. reflexivity.
Qed.

End Respects.

Lemma stateless_ret {A} (a : A) : stateless (ret a).
Proof. intros w st. reflexivity. Qed.

Lemma stateless_raise {A} e : stateless (@raise A e).
Proof. intros w st. reflexivity. Qed.

Lemma stateless_lift {A} (r : result A) : stateless (lift r).
Proof. intros w st. reflexivity. Qed.

Lemma stateless_fmt v : stateless (fmt v).
Proof. intros w st. reflexivity. Qed.

Lemma stateless_getitem v k : stateless (getitem v k).
Proof. intros w st. reflexivity. Qed.

Lemma stateless_py_iter v : stateless (py_iter v).
Proof. intros w st. reflexivity. Qed.

Lemma stateless_float_add x v : stateless (float_add x v).
Proof. intros w st. reflexivity. Qed.

Lemma stateless_time_time : stateless time_time.
Proof. intros w st. reflexivity. Qed.

Lemma stateless_py_assert b : stateless (py_assert b).
Proof. intros w st. destruct b; reflexivity. Qed.

Lemma stateless_to_json v : stateless (to_json v).
Proof. intros w st. destruct v; reflexivity. Qed.

Lemma stateless_kwargs positional j : stateless (kwargs positional j).
Proof.
  intros w st. unfold kwargs. destruct j; try reflexivity.
  destruct (existsb _ d); reflexivity.
Qed.

Lemma stateless_getattr l name : stateless (getattr l name).
Proof.
  intros w st. unfold getattr.
  destruct (heap st !! l) as [o|]; [destruct (find_attr o name)|]; reflexivity.
Qed.

Lemma stateless_instance_of c v : stateless (instance_of c v).
Proof.
  intros w st. unfold instance_of. destruct v; try reflexivity.
  destruct (heap st !! l) as [o|]; [|reflexivity].
  destruct c, (cls o); reflexivity.
Qed.

Lemma stateless_raise_for_status r : stateless (raise_for_status r).
Proof. intros w st. unfold raise_for_status. destruct (_ && _); reflexivity. Qed.

Lemma stateless_response_json r : stateless (response_json r).
Proof. intros w st. unfold response_json. destruct (resp_body r); reflexivity. Qed.

Lemma stateless_jwt_decode token : stateless (jwt_decode_unverified token).
Proof.
  intros w st. unfold jwt_decode_unverified.
  destruct token as [[]| |]; try reflexivity.
  destruct (jwt_decode w s); reflexivity.
Qed.

Lemma stateless_isoparse (j : json) :
  stateless (fun (w : world) (st : state) => (isoparse w j, st)).
Proof. intros w st. reflexivity. Qed.

#[local] Hint Resolve stateless_ret stateless_raise stateless_lift stateless_fmt
  stateless_getitem stateless_py_iter stateless_float_add stateless_time_time
  stateless_py_assert stateless_to_json stateless_kwargs stateless_getattr
  stateless_instance_of stateless_raise_for_status stateless_response_json
  stateless_jwt_decode stateless_isoparse : frame.

Lemma no_call_setattr l name v : respects same_trace (setattr l name v).
Proof.
  intros w st. unfold setattr, same_trace.
  destruct (heap st !! l); reflexivity.
Qed.

Lemma no_call_new o : respects same_trace (new o).
Proof. intros w st. reflexivity. Qed.

Lemma only_allocates_new o : respects extends (new o).
Proof. intros w st. exists [o]. reflexivity. Qed.

Lemma only_allocates_requests method url headers body :
  respects extends (requests_request method url headers body).
Proof. intros w st. exists []. cbn. symmetry. apply app_nil_r. Qed.

Lemma touches_only_setattr l name v : respects (same_but l) (setattr l name v).
Proof.
  intros w st. unfold setattr.
  destruct (heap st !! l) as [o|]; cbn; [|apply frame_refl].
  split; [apply length_insert|].
  intros l' Hl. apply list_lookup_insert_ne. congruence.
Qed.

Lemma touches_only_requests l method url headers body :
  respects (same_but l) (requests_request method url headers body).
Proof. intros w st. split; reflexivity. Qed.

#[local] Hint Resolve no_call_setattr no_call_new only_allocates_new
  only_allocates_requests touches_only_setattr touches_only_requests : frame.

(** Goes through a method body, one statement at a time. *)
Ltac frame :=
  unfold no_call, only_allocates, touches_only;
  repeat first
    [ solve [auto with frame]
    | solve [apply respects_stateless; [typeclasses eauto | auto with frame]]
    | apply respects_bind; [typeclasses eauto | | intros]
    | apply respects_for_each; [typeclasses eauto | intros]
    | match goal with
      | |- respects _ (if ?b then _ else _) => destruct b
      | |- respects _ (match ?x with _ => _ end) => destruct x
      end ].

Lemma no_call_init_account a j : respects same_trace (Init.Account a j).
Proof. unfold Init.Account. frame. Qed.

Lemma no_call_init_spa a acc j : respects same_trace (Init.Spa a acc j).
Proof. unfold Init.Spa. frame. Qed.

Lemma no_call_init_pump a s j : respects same_trace (Init.SpaPump a s j).
Proof. unfold Init.SpaPump. frame. Qed.

Lemma no_call_init_light a s j : respects same_trace (Init.SpaLight a s j).
Proof. unfold Init.SpaLight. frame. Qed.

Lemma no_call_init_reminder a s j : respects same_trace (Init.SpaReminder a s j).
Proof. unfold Init.SpaReminder. frame. Qed.

Lemma only_allocates_init_account a j : respects extends (Init.Account a j).
Proof. unfold Init.Account. frame. Qed.

Lemma only_allocates_init_spa a acc j : respects extends (Init.Spa a acc j).
Proof. unfold Init.Spa. frame. Qed.

Lemma only_allocates_init_pump a s j : respects extends (Init.SpaPump a s j).
Proof. unfold Init.SpaPump. frame. Qed.

Lemma only_allocates_init_light a s j : respects extends (Init.SpaLight a s j).
Proof. unfold Init.SpaLight. frame. Qed.

Lemma only_allocates_init_reminder a s j : respects extends (Init.SpaReminder a s j).
Proof. unfold Init.SpaReminder. frame. Qed.

#[local] Hint Resolve no_call_init_account no_call_init_spa no_call_init_pump
  no_call_init_light no_call_init_reminder only_allocates_init_account
  only_allocates_init_spa only_allocates_init_pump only_allocates_init_light
  only_allocates_init_reminder : frame.

Lemma only_allocates_request self method path body :
  respects extends (SmartTub.request self method path body).
Proof. unfold SmartTub.request, SmartTub._require_login, SmartTub._headers. frame. Qed.

#[local] Hint Resolve only_allocates_request : frame.

Lemma only_allocates_spa_request self method resource body :
  respects extends (Spa.request self method resource body).
Proof. unfold Spa.request. frame. Qed.

#[local] Hint Resolve only_allocates_spa_request : frame.

Lemma only_allocates_get_spa self spa_id : respects extends (Account.get_spa self spa_id).
Proof. unfold Account.get_spa. frame. Qed.

#[local] Hint Resolve only_allocates_get_spa : frame.

Lemma login_same_but self username password :
  respects (same_but self) (SmartTub.login self username password).
Proof. unfold SmartTub.login. frame. Qed.

(** ** One call at a time *)

Lemma amo_no_call {A} (m : M A) : no_call m -> at_most_one_call m.
Proof. intros H w st. left. apply H. Qed.

Lemma amo_requests_request method url headers body :
  at_most_one_call (requests_request method url headers body).
Proof. intros w st. right. eexists. reflexivity. Qed.

Lemma amo_bind_first {A B} (m : M A) (k : A -> M B) :
  at_most_one_call m -> (forall a, no_call (k a)) -> at_most_one_call (bind m k).
Proof.
  intros Hm Hk w st. unfold bind. specialize (Hm w st).
  destruct (m w st) as [[a|e] st1]; cbn in Hm |- *; [|exact Hm].
  rewrite (Hk a w st1). exact Hm.
Qed.

Lemma amo_bind_rest {A B} (m : M A) (k : A -> M B) :
  no_call m -> (forall a, at_most_one_call (k a)) -> at_most_one_call (bind m k).
Proof.
  intros Hm Hk w st. unfold bind. specialize (Hm w st).
  destruct (m w st) as [[a|e] st1]; cbn in Hm |- *; [|left; exact Hm].
  rewrite <- Hm. apply Hk.
Qed.

Create HintDb calls.

Ltac calls :=
  first
    [ solve [auto with calls]
    | solve [apply amo_no_call; frame]
    | apply amo_requests_request
    | apply amo_bind_rest; [solve [frame] | intros; calls]
    | apply amo_bind_first; [calls | intros; solve [frame]]
    | match goal with
      | |- at_most_one_call (if ?b then _ else _) => destruct b; calls
      | |- at_most_one_call (match ?x with _ => _ end) => destruct x; calls
      end ].

Lemma amo_request self method path body :
  at_most_one_call (SmartTub.request self method path body).
Proof. unfold SmartTub.request, SmartTub._require_login, SmartTub._headers. calls. Qed.

#[local] Hint Resolve amo_request : calls.

Lemma amo_spa_request self method resource body :
  at_most_one_call (Spa.request self method resource body).
Proof. unfold Spa.request. calls. Qed.

#[local] Hint Resolve amo_spa_request : calls.

(** X1.  Every method but [get_spas] makes at most one HTTP call, whatever
    its arguments, the state and the outcome; the constructors make none. *)
Theorem one_call_per_method :
  (forall self username password, at_most_one_call (SmartTub.login self username password)) /\
  (forall self method path body, at_most_one_call (SmartTub.request self method path body)) /\
  (forall self, at_most_one_call (SmartTub.get_account self)) /\
  (forall self spa_id, at_most_one_call (Account.get_spa self spa_id)) /\
  (forall self method resource body, at_most_one_call (Spa.request self method resource body)) /\
  (forall self, at_most_one_call (Spa.get_status self)) /\
  (forall self, at_most_one_call (Spa.get_pumps self)) /\
  (forall self, at_most_one_call (Spa.get_lights self)) /\
  (forall self, at_most_one_call (Spa.get_errors self)) /\
  (forall self, at_most_one_call (Spa.get_reminders self)) /\
  (forall self, at_most_one_call (Spa.get_debug_status self)) /\
  (forall self interval start_date end_date,
     at_most_one_call (Spa.get_energy_usage self interval start_date end_date)) /\
  (forall self mode, at_most_one_call (Spa.set_secondary_filtration_mode self mode)) /\
  (forall self mode, at_most_one_call (Spa.set_heat_mode self mode)) /\
  (forall self temp_c, at_most_one_call (Spa.set_temperature self temp_c)) /\
  (forall self str, at_most_one_call (Spa.toggle_clearray self str)) /\
  (forall self temperature_format,
     at_most_one_call (Spa.set_temperature_format self temperature_format)) /\
  (forall self date time, at_most_one_call (Spa.set_date_time self date time)) /\
  (forall self, at_most_one_call (SpaPump.toggle self)) /\
  (forall self intensity mode, at_most_one_call (SpaLight.set self intensity mode)) /\
  (forall self, at_most_one_call (SpaLight.toggle self)) /\
  (forall _api j, no_call (Init.Account _api j)) /\
  (forall _api account j, no_call (Init.Spa _api account j)) /\
  (forall _api spa j, no_call (Init.SpaPump _api spa j)) /\
  (forall _api spa j, no_call (Init.SpaLight _api spa j)) /\
  (forall _api spa j, no_call (Init.SpaReminder _api spa j)).
Proof.
  repeat split; intros.
  - unfold SmartTub.login. calls.
  - calls.
  - unfold SmartTub.get_account, SmartTub._require_login, SmartTub._headers. calls.
  - unfold Account.get_spa. calls.
  - calls.
  - unfold Spa.get_status. calls.
  - unfold Spa.get_pumps. calls.
  - unfold Spa.get_lights. calls.
  - unfold Spa.get_errors. calls.
  - unfold Spa.get_reminders. calls.
  - unfold Spa.get_debug_status. calls.
  - unfold Spa.get_energy_usage. calls.
  - unfold Spa.set_secondary_filtration_mode. calls.
  - unfold Spa.set_heat_mode. calls.
  - unfold Spa.set_temperature. calls.
  - unfold Spa.toggle_clearray. calls.
  - unfold Spa.set_temperature_format. calls.
  - unfold Spa.set_date_time. calls.
  - unfold SpaPump.toggle. calls.
  - unfold SpaLight.set. calls.
  - unfold SpaLight.toggle. calls.
  - apply no_call_init_account.
  - apply no_call_init_spa.
  - apply no_call_init_pump.
  - apply no_call_init_light.
  - apply no_call_init_reminder.
Qed.

(** X2.  No read changes an object that was there: [get_account],
    [get_spa], [get_spas] and the reads of a spa leave every object of the
    heap as it was and at most add new ones.  An object obtained earlier is
    not brought up to date by a later read. *)
Theorem reads_only_add_objects :
  (forall self, only_allocates (SmartTub.get_account self)) /\
  (forall self spa_id, only_allocates (Account.get_spa self spa_id)) /\
  (forall self, only_allocates (Account.get_spas self)) /\
  (forall self, only_allocates (Spa.get_status self)) /\
  (forall self, only_allocates (Spa.get_pumps self)) /\
  (forall self, only_allocates (Spa.get_lights self)) /\
  (forall self, only_allocates (Spa.get_errors self)) /\
  (forall self, only_allocates (Spa.get_reminders self)) /\
  (forall self, only_allocates (Spa.get_debug_status self)) /\
  (forall self interval start_date end_date,
     only_allocates (Spa.get_energy_usage self interval start_date end_date)).
Proof.
  repeat split; intros.
  - unfold SmartTub.get_account, SmartTub._require_login, SmartTub._headers. frame.
  - apply only_allocates_get_spa.
  - unfold Account.get_spas. frame.
  - unfold Spa.get_status. frame.
  - unfold Spa.get_pumps. frame.
  - unfold Spa.get_lights. frame.
  - unfold Spa.get_errors. frame.
  - unfold Spa.get_reminders. frame.
  - unfold Spa.get_debug_status. frame.
  - unfold Spa.get_energy_usage. frame.
Qed.

(** ** The client, before and after [login] *)

(** X3.  A client just built is logged out: [SmartTub()] adds one object
    and touches nothing else, makes no HTTP call, and on the new client
    [request] and [get_account] raise [RuntimeError('not logged in')] without
    making one either. *)
Theorem new_client_is_logged_out w st :
  exists api st1,
    SmartTub.__init__ w st = (Ok api, st1) /\
    api = length (heap st) /\
    extends st st1 /\
    trace st1 = trace st /\
    logged_out st1 api /\
    (forall method path body, refused (SmartTub.request api method path body) w st1) /\
    refused (SmartTub.get_account api) w st1.
Proof.
  eexists _, _. split; [reflexivity|]. split; [reflexivity|].
  split; [eexists; reflexivity|]. split; [reflexivity|].
  assert (Hout : logged_out
                   {| heap := heap st ++ [{| cls := CSmartTub;
                                             attrs := [("logged_in", PJson (JBool false))] |}];
                      trace := trace st |} (length (heap st))).
  { eexists. split; [apply list_lookup_middle; reflexivity|]. split; reflexivity. }
  split; [exact Hout|].
  split; [intros; apply request_refused, Hout | apply get_account_refused, Hout].
Qed.

(** The four statements of [login] before the call, on a client. *)
Ltac login_to_call Ho Hcl :=
  unfold SmartTub.login;
  do 4 (erewrite bind_run
          by (eapply getattr_run;
              [exact Ho | eapply is_client_const; [exact Hcl | reflexivity]]);
        cbn beta iota);
  unfold fmt at 1, bind at 1; cbn beta iota;
  unfold to_json at 1 2 3, ret at 1 2 3;
  do 3 (unfold bind at 1; cbn beta iota);
  unfold bind at 1, requests_request at 1; cbn beta iota zeta;
  match goal with
  | |- context [{| req_method := "POST"; req_url := ?u; req_headers := []; req_json := ?b |}] =>
      change {| req_method := "POST"; req_url := u; req_headers := []; req_json := b |}
        with (login_call ltac:(match b with context [("username", JStr ?x)] => exact x end)
                         ltac:(match b with context [("password", JStr ?x)] => exact x end))
  end.

(** X4.  A login that is turned down writes nothing.  When the response is
    a 4xx or a 5xx, or has no JSON body, or has no [access_token], [login]
    raises ([HTTPError] with the status, [JSONDecodeError], [KeyError]) after
    its one call and before its first assignment: every object, the client
    included, is as it was, and a client that was logged in goes on sending
    its old token. *)
Theorem rejected_login_writes_nothing w st self username password o :
  heap st !! self = Some o -> is_client o ->
  let r := server w (trace st) (login_call username password) in
  let st1 := sent st (login_call username password) in
  (forall e, response_result r = Raise e ->
     SmartTub.login self username password w st = (Raise e, st1)) /\
  (400 <= status_code r < 600 ->
     SmartTub.login self username password w st =
       (Raise (HTTPError (status_code r) (resp_body r)), st1)) /\
  (forall j e, response_result r = Ok j -> py_getitem (PJson j) "access_token" = Raise e ->
     SmartTub.login self username password w st = (Raise e, st1)) /\
  (forall token method path body,
     logged_in st self token ->
     SmartTub.request self method path body w st1 =
       (response_result (server w (trace st1) (api_call method path token body)),
        sent st1 (api_call method path token body))).
Proof.
  intros Ho Hcl r st1.
  assert (Hrun : forall e, response_result r = Raise e ->
                   SmartTub.login self username password w st = (Raise e, st1)).
  { intros e He. login_to_call Ho Hcl.
    erewrite bind_run by apply raise_for_status_run.
    fold r. unfold response_result in He.
    destruct ((400 <=? _) && _); [injection He as <-; reflexivity|].
    cbn beta iota.
    erewrite bind_run by apply response_json_run.
    fold r. destruct (resp_body r); [discriminate He|].
    injection He as <-. reflexivity. }
  split; [exact Hrun|]. split; [|split].
  - intros Hs. apply Hrun, response_result_error, Hs.
  - intros j e Hj He. login_to_call Ho Hcl.
    erewrite bind_run by apply raise_for_status_run.
    fold r. unfold response_result in Hj.
    destruct ((400 <=? _) && _); [discriminate Hj|]. cbn beta iota.
    erewrite bind_run by apply response_json_run.
    fold r. destruct (resp_body r); [|discriminate Hj].
    injection Hj as ->. cbn beta iota.
    unfold getitem at 1, lift at 1, bind at 1. rewrite He. reflexivity.
  - intros token method path body Hl. apply request_sends. exact Hl.
Qed.





(** X6.  [login] writes to the client and to nothing else: whatever its
    outcome, no object is added or removed and every attribute of every other
    object reads as before. *)
Theorem login_touches_only_the_client w st self username password l name :
  l <> self ->
  length (heap (snd (SmartTub.login self username password w st))) = length (heap st) /\
  attr (snd (SmartTub.login self username password w st)) l name = attr st l name.
Proof.
  intros Hl. destruct (login_same_but self username password w st) as [Hlen Hsame].
  split; [exact Hlen|]. unfold attr. rewrite Hsame by exact Hl. reflexivity.
Qed.

(** X6, run: the second login of the demo session leaves the spa alone. *)
Lemma login_touches_only_the_client_witness :
  length (heap relogged_state) = length (heap demo_state) /\
  attr relogged_state the_spa "id" = attr demo_state the_spa "id".
Proof.
  apply (login_touches_only_the_client (world_granting "tok2" "Bearer") demo_state the_api
           "user@example.com" "secret" the_spa "id").
  discriminate.
Defined.

(** X4, run: the demo session, against an authentication server that
    answers 401. *)
Lemma rejected_login_writes_nothing_witness :
  SmartTub.login the_api "user@example.com" "wrong" (world_answering 401 None) demo_state =
    (Raise (HTTPError 401 None), sent demo_state (login_call "user@example.com" "wrong")) /\
  SmartTub.request the_api "GET" "spas/spa1" JNull demo_world
      (sent demo_state (login_call "user@example.com" "wrong")) =
    (response_result
       (server demo_world (trace (sent demo_state (login_call "user@example.com" "wrong")))
          (api_call "GET" "spas/spa1" "tok" JNull)),
     sent (sent demo_state (login_call "user@example.com" "wrong"))
       (api_call "GET" "spas/spa1" "tok" JNull)).
Proof.
  destruct demo_logged_in as (o & Ho & Hcl & Hrest).
  split.
  - destruct (rejected_login_writes_nothing (world_answering 401 None) demo_state the_api
                "user@example.com" "wrong" o Ho Hcl) as (_ & Hstatus & _).
    apply Hstatus. simpl. lia.
  - destruct (rejected_login_writes_nothing demo_world demo_state the_api
                "user@example.com" "wrong" o Ho Hcl) as (_ & _ & _ & Hreq).
    apply Hreq. exists o. split; [exact Ho|]. split; [exact Hcl | exact Hrest].
Defined.

(** X7.  The check of [token_type] comes late.  When the response is fine
    but for a [token_type] other than [Bearer], [login] raises
    [AssertionError] having already stored [access_token],
    [access_token_data], [expires_at] and [refresh_token]; [account_id] and
    [logged_in] are not written.  So a client that was logged in stays
    logged in, with the new token and the account id of the old one. *)
Theorem login_checks_token_type_late w st self username password o j token claims
    expires_in expires_at refresh_token token_type :
  heap st !! self = Some o -> is_client o ->
  response_result (server w (trace st) (login_call username password)) = Ok j ->
  py_getitem (PJson j) "access_token" = Ok (JStr token) ->
  jwt_decode w token = Some claims ->
  py_getitem (PJson j) "expires_in" = Ok expires_in ->
  py_float_add (clock w) expires_in = Ok expires_at ->
  py_getitem (PJson j) "refresh_token" = Ok refresh_token ->
  py_getitem (PJson j) "token_type" = Ok token_type ->
  py_eq_str (PJson token_type) "Bearer" = false ->
  exists st',
    SmartTub.login self username password w st = (Raise AssertionError, st') /\
    trace st' = (trace st ++ [login_call username password])%list /\
    attr st' self "access_token" = Some (PJson (JStr token)) /\
    attr st' self "access_token_data" = Some (PJson claims) /\
    attr st' self "expires_at" = Some (PJson expires_at) /\
    attr st' self "refresh_token" = Some (PJson refresh_token) /\
    attr st' self "account_id" = attr st self "account_id" /\
    attr st' self "logged_in" = attr st self "logged_in" /\
    (forall old, logged_in st self old -> logged_in st' self token).
Proof.
  intros Ho Hcl Hr Htok Hclaims Hexp Hat Href Htype Hbad.
  unfold response_result in Hr.
  destruct ((400 <=? _) && _) eqn:Estatus; [discriminate Hr|].
  destruct (resp_body _) as [j'|] eqn:Ebody; [|discriminate Hr].
  injection Hr as ->.
  eexists. split.
  { login_to_call Ho Hcl.
    erewrite bind_run by apply raise_for_status_run.
    rewrite Estatus. cbn beta iota.
    erewrite bind_run by apply response_json_run.
    rewrite Ebody. cbn beta iota.
    unfold getitem at 1, lift at 1, bind at 1. rewrite Htok.
    erewrite bind_run by (eapply setattr_run; exact Ho).
    cbn [heap trace]. cbn beta iota.
    pose proof (lookup_updated _ _ _ (set_attr o "access_token" (JStr token)) Ho) as Ho1.
    erewrite bind_run
      by (eapply getattr_run;
          [exact Ho1 | unfold find_attr; cbn [attrs set_attr]; rewrite dict_get_set; reflexivity]).
    cbn beta iota.
    unfold jwt_decode_unverified at 1, bind at 1. rewrite Hclaims.
    erewrite bind_run by (eapply setattr_run; exact Ho1).
    cbn [heap trace]. cbn beta iota.
    pose proof (lookup_updated _ _ _
                  (set_attr (set_attr o "access_token" (JStr token)) "access_token_data" claims)
                  Ho1) as Ho2.
    unfold time_time at 1, bind at 1.
    unfold getitem at 1, lift at 1, bind at 1. rewrite Hexp.
    unfold float_add at 1, lift at 1, bind at 1. rewrite Hat.
    erewrite bind_run by (eapply setattr_run; exact Ho2).
    cbn [heap trace]. cbn beta iota.
    match goal with
    | |- context [<[self := set_attr ?x "expires_at" ?v]> _] =>
        pose proof (lookup_updated _ _ _ (set_attr x "expires_at" v) Ho2) as Ho3
    end.
    unfold getitem at 1, lift at 1, bind at 1. rewrite Href.
    erewrite bind_run by (eapply setattr_run; exact Ho3).
    cbn [heap trace]. cbn beta iota.
    unfold getitem at 1, lift at 1, bind at 1. rewrite Htype.
    unfold py_assert at 1, bind at 1. rewrite Hbad.
    reflexivity. }
  assert (Hfinal :
            <[self := set_attr
                        (set_attr
                           (set_attr (set_attr o "access_token" (JStr token))
                              "access_token_data" claims)
                           "expires_at" expires_at)
                        "refresh_token" refresh_token]>
              (<[self := set_attr
                           (set_attr (set_attr o "access_token" (JStr token))
                              "access_token_data" claims)
                           "expires_at" expires_at]>
                 (<[self := set_attr (set_attr o "access_token" (JStr token))
                              "access_token_data" claims]>
                    (<[self := set_attr o "access_token" (JStr token)]> (heap st))))
              !! self
            = Some (set_attr
                      (set_attr
                         (set_attr (set_attr o "access_token" (JStr token))
                            "access_token_data" claims)
                         "expires_at" expires_at)
                      "refresh_token" refresh_token)).
  { apply list_lookup_insert_eq. rewrite !length_insert. eapply lookup_lt_Some, Ho. }
  unfold attr. cbn [heap trace sent]. rewrite Hfinal, Ho.
  unfold find_attr. cbn [attrs set_attr cls]. rewrite !dict_get_set.
  repeat (split; [reflexivity|]).
  intros old (o' & Ho' & Hcl' & Hli & _ & Haid).
  rewrite Ho in Ho'. injection Ho' as <-.
  eexists. split; [exact Hfinal|].
  split; [repeat (apply is_client_set_attr; [|not_a_constant]); exact Hcl|].
  cbn [attrs set_attr cls]. rewrite !dict_get_set.
  split; [exact Hli|]. split; [reflexivity|]. exact Haid.
Qed.

(** X7, run: the demo session, against a server that grants a [MAC]
    token. *)
Lemma login_checks_token_type_late_witness :
  exists st',
    SmartTub.login the_api "user@example.com" "secret" (world_granting "tok2" "MAC")
      demo_state = (Raise AssertionError, st') /\
    attr st' the_api "access_token" = Some (PJson (JStr "tok2")) /\
    attr st' the_api "logged_in" = Some (PJson (JBool true)) /\
    logged_in st' the_api "tok2".
Proof.
  destruct demo_logged_in as (o & Ho & Hcl & Hrest).
  destruct (login_checks_token_type_late (world_granting "tok2" "MAC") demo_state the_api
              "user@example.com" "secret" o _ "tok2" _ _ _ _ _
              Ho Hcl eq_refl eq_refl eq_refl eq_refl eq_refl eq_refl eq_refl eq_refl)
    as (st' & Hrun & _ & Htok & _ & _ & _ & _ & Hli & Hkeep).
  exists st'. split; [exact Hrun|]. split; [exact Htok|].
  split; [rewrite Hli; reflexivity|].
  apply (Hkeep "tok"). exists o. split; [exact Ho|]. split; [exact Hcl | exact Hrest].
Defined.

(** ** Pumps, lights and reminders *)

Lemma kwargs_inv positional j w st d st' :
  kwargs positional j w st = (Ok d, st') -> j = JDict d /\ st' = st.
Proof.
  unfold kwargs. destruct j; try discriminate.
  destruct (existsb _ d0); [discriminate|]. intros [= <- <-]. split; reflexivity.
Qed.

Ltac take_kwargs H :=
  match type of H with
  | bind (kwargs ?p ?j) _ ?w ?st = _ =>
      let E := fresh "E" in
      unfold bind at 1 in H;
      destruct (kwargs p j w st) as [[?|?] ?] eqn:E; [|discriminate H];
      apply kwargs_inv in E as [-> ->]
  end.

Ltac take_item H k :=
  let E := fresh "E" in
  unfold getitem at 1, lift at 1, bind at 1 in H; cbn [py_getitem] in H;
  match type of H with
  | context [dict_get ?d k] => destruct (dict_get d k) eqn:E; [|discriminate H]
  end.

Lemma init_pump_inv _api spa j w st l st' :
  Init.SpaPump _api (PRef spa) j w st = (Ok l, st') ->
  extends st st' /\ trace st' = trace st /\ pump_from st' l _api spa j.
Proof.
  unfold Init.SpaPump. intros H. take_kwargs H.
  take_item H "id". take_item H "speed". take_item H "state". take_item H "type".
  unfold new in H. injection H as <- <-.
  split; [eexists; reflexivity|]. split; [reflexivity|].
  do 5 eexists. repeat (split; [first [reflexivity | eassumption]|]).
  apply list_lookup_middle. reflexivity.
Qed.

Lemma init_light_inv _api spa j w st l st' :
  Init.SpaLight _api (PRef spa) j w st = (Ok l, st') ->
  extends st st' /\ trace st' = trace st /\ light_from st' l _api spa j.
Proof.
  unfold Init.SpaLight. intros H. take_kwargs H.
  take_item H "zone". take_item H "color". take_item H "intensity". take_item H "mode".
  unfold new in H. injection H as <- <-.
  split; [eexists; reflexivity|]. split; [reflexivity|].
  do 5 eexists. repeat (split; [first [reflexivity | eassumption]|]).
  apply list_lookup_middle. reflexivity.
Qed.


Lemma pump_from_extends st st' l a spa j :
  extends st st' -> pump_from st l a spa j -> pump_from st' l a spa j.
Proof.
  intros He (p & i & s & t & y & H1 & H2 & H3 & H4 & H5 & H).
  exists p, i, s, t, y. repeat (split; [assumption|]). eapply extends_lookup; eassumption.
Qed.

Lemma light_from_extends st st' l a spa j :
  extends st st' -> light_from st l a spa j -> light_from st' l a spa j.
Proof.
  intros He (p & z & c & i & m & H1 & H2 & H3 & H4 & H5 & H).
  exists p, z, c, i, m. repeat (split; [assumption|]). eapply extends_lookup; eassumption.
Qed.


(** A loop that builds one object per record. *)
Lemma build_each w (f : json -> M loc) (P : state -> loc -> json -> Prop)
    (I : state -> Prop) :
  (forall st st', extends st st' -> I st -> I st') ->
  (forall st st' l item, extends st st' -> P st l item -> P st' l item) ->
  (forall item st l st',
     I st -> f item w st = (Ok l, st') ->
     extends st st' /\ trace st' = trace st /\ P st' l item) ->
  forall items st ls st',
    I st -> for_each f items w st = (Ok ls, st') ->
    extends st st' /\ trace st' = trace st /\ Forall2 (P st') ls items.
Proof.
  intros HI HP Hf. induction items as [|item items IH]; intros st ls st' Hi H.
  - injection H as <- <-. split; [apply extends_refl|]. split; [reflexivity | constructor].
  - cbn [for_each] in H. unfold bind at 1 in H.
    destruct (f item w st) as [[l|e] st1] eqn:Ef; [|discriminate H].
    destruct (Hf _ _ _ _ Hi Ef) as (He1 & Ht1 & Hp).
    unfold bind at 1 in H.
    destruct (for_each f items w st1) as [[ls'|e] st2] eqn:Erest; [|discriminate H].
    injection H as <- <-.
    destruct (IH _ _ _ (HI _ _ He1 Hi) Erest) as (He2 & Ht2 & Hall).
    split; [eapply extends_trans; eassumption|].
    split; [congruence|].
    constructor; [eapply HP; eassumption | exact Hall].
Qed.

(** A read that builds objects: the call, then the loop over one entry of
    the response. *)
Lemma spa_collection w st spa api id token resource key (f : json -> M loc)
    (P : state -> loc -> json -> Prop) ls st' :
  is_spa st spa api id -> logged_in st api token ->
  (forall st st' l item, extends st st' -> P st l item -> P st' l item) ->
  (forall item st l st',
     is_spa st spa api id -> f item w st = (Ok l, st') ->
     extends st st' /\ trace st' = trace st /\ P st' l item) ->
  (j <- Spa.request spa "GET" (JStr resource) JNull ;;
   records <- getitem j key ;;
   items <- py_iter records ;;
   for_each f items) w st = (Ok ls, st') ->
  exists j records items,
    response_result
      (server w (trace st)
         (api_call "GET" ("spas/" ++ py_str w id ++ "/" ++ resource) token JNull)) = Ok j /\
    py_getitem (PJson j) key = Ok records /\
    py_items records = Ok items /\
    trace st' =
      (trace st ++ [api_call "GET" ("spas/" ++ py_str w id ++ "/" ++ resource) token JNull])%list /\
    extends st st' /\
    Forall2 (P st') ls items.
Proof.
  intros Hs Hl HP Hf H.
  erewrite bind_run in H by (eapply spa_request_sends; eassumption).
  change (py_str w (PJson (JStr resource))) with resource in H.
  set (rq := api_call "GET" ("spas/" ++ py_str w id ++ "/" ++ resource) token JNull) in *.
  destruct (response_result _) as [j|] eqn:Ej; [|discriminate H].
  unfold getitem at 1, lift at 1, bind at 1 in H.
  destruct (py_getitem j key) as [records|] eqn:Er; [|discriminate H].
  unfold py_iter at 1, lift at 1, bind at 1 in H.
  destruct (py_items records) as [items|] eqn:Ei; [|discriminate H].
  destruct (build_each w f P (fun st => is_spa st spa api id)
              (fun st st' He => is_spa_extends st st' spa api id He) HP Hf
              items (sent st rq) ls st' Hs H) as (He & Ht & Hall).
  exists j, records, items.
  repeat (split; [first [reflexivity | assumption]|]). exact Hall.
Qed.

Lemma spa_api_attr w st spa api id :
  is_spa st spa api id -> getattr spa "_api" w st = (Ok (PRef api), st).
Proof.
  intros (acc & b & m & p & Hs). eapply getattr_run; [exact Hs | reflexivity].
Qed.

Lemma pump_toggle_sends w st pump spa api pid sid token :
  is_pump st pump spa pid -> is_spa st spa api sid -> logged_in st api token ->
  SpaPump.toggle pump w st =
    (discard
       (response_result
          (server w (trace st)
             (api_call "POST"
                ("spas/" ++ py_str w sid ++ "/pumps/" ++ py_str w pid ++ "/toggle") token JNull))),
     sent st
       (api_call "POST"
          ("spas/" ++ py_str w sid ++ "/pumps/" ++ py_str w pid ++ "/toggle") token JNull)).
Proof.
  intros Hp Hs Hl.
  erewrite pump_toggle_delegates by (try eassumption; eauto).
  apply discard_run.
  erewrite spa_request_sends by eassumption. reflexivity.
Qed.

Lemma pump_from_is_pump st pump a spa item :
  pump_from st pump a spa item ->
  exists pid, attr st pump "id" = Some (PJson pid) /\ is_pump st pump spa pid /\
              py_getitem (PJson item) "id" = Ok pid.
Proof.
  intros (p & i & s & t & y & -> & Hi & _ & _ & _ & H). exists i.
  split; [unfold attr; rewrite H; reflexivity|].
  split; [do 5 eexists; exact H | cbn; rewrite Hi; reflexivity].
Qed.

(** X8.  When [get_pumps] returns, it has made one call,
    [GET spas/{id}/pumps]; it returns one [SpaPump] per element of the
    response's [pumps], in order, each built from its element and attached to
    this spa; and [toggle] on any of them POSTs to
    [spas/{id}/pumps/{pump id}/toggle] with the pump id of its element. *)
Theorem get_pumps_builds_pumps w st spa api id token pumps st' :
  is_spa st spa api id -> logged_in st api token ->
  Spa.get_pumps spa w st = (Ok pumps, st') ->
  exists j records items,
    response_result
      (server w (trace st)
         (api_call "GET" ("spas/" ++ py_str w id ++ "/pumps") token JNull)) = Ok j /\
    py_getitem (PJson j) "pumps" = Ok records /\
    py_items records = Ok items /\
    trace st' =
      (trace st ++ [api_call "GET" ("spas/" ++ py_str w id ++ "/pumps") token JNull])%list /\
    Forall2 (fun pump item => pump_from st' pump (PRef api) spa item) pumps items /\
    (forall pump, In pump pumps ->
       exists pid,
         attr st' pump "id" = Some (PJson pid) /\
         SpaPump.toggle pump w st' =
           (discard
              (response_result
                 (server w (trace st')
                    (api_call "POST"
                       ("spas/" ++ py_str w id ++ "/pumps/" ++ py_str w pid ++ "/toggle")
                       token JNull))),
            sent st'
              (api_call "POST"
                 ("spas/" ++ py_str w id ++ "/pumps/" ++ py_str w pid ++ "/toggle")
                 token JNull))).
Proof.
  intros Hs Hl H. unfold Spa.get_pumps in H.
  destruct (spa_collection w st spa api id token "pumps" "pumps"
              (fun pump_info : json =>
                 _api <- getattr spa "_api" ;; Init.SpaPump _api (PRef spa) pump_info)
              (fun st pump item => pump_from st pump (PRef api) spa item) pumps st' Hs Hl
              (fun st st' l item => pump_from_extends st st' l _ spa item))
    as (j & records & items & Hj & Hr & Hi & Ht & He & Hall).
  - intros item st0 l st1 Hs0 Hf.
    erewrite bind_run in Hf by (eapply spa_api_attr; exact Hs0).
    apply init_pump_inv in Hf. exact Hf.
  - exact H.
  - exists j, records, items.
    repeat (split; [assumption|]).
    intros pump Hin.
    destruct (Forall2_In_left _ _ _ _ Hall Hin) as (item & Hfrom).
    destruct (pump_from_is_pump _ _ _ _ _ Hfrom) as (pid & Hid & Hp & _).
    exists pid. split; [exact Hid|].
    apply (pump_toggle_sends w st' pump spa api pid id token Hp).
    + eapply is_spa_extends; eassumption.
    + eapply logged_in_extends; eassumption.
Qed.

(** X8, run: the spa of the demo session. *)
Lemma get_pumps_builds_pumps_witness :
  exists pumps st',
    Spa.get_pumps the_spa demo_world demo_state = (Ok pumps, st') /\
    pumps = [5%nat] /\
    attr st' 5%nat "id" = Some (PJson (JStr "P1")) /\
    SpaPump.toggle 5%nat demo_world st' =
      (discard
         (response_result
            (server demo_world (trace st')
               (api_call "POST" "spas/spa1/pumps/P1/toggle" "tok" JNull))),
       sent st' (api_call "POST" "spas/spa1/pumps/P1/toggle" "tok" JNull)).
Proof.
  destruct (Spa.get_pumps the_spa demo_world demo_state) as [r st'] eqn:Hrun.
  vm_compute in Hrun. injection Hrun as <- <-.
  eexists _, _. split; [reflexivity|]. split; [reflexivity|].
  match goal with
  | |- attr ?s _ _ = _ /\ _ =>
      destruct (get_pumps_builds_pumps demo_world demo_state the_spa the_api (JStr "spa1")
                  "tok" [5%nat] s demo_is_spa demo_logged_in eq_refl)
        as (j & records & items & _ & _ & _ & _ & _ & Htoggle)
  end.
  destruct (Htoggle 5%nat (or_introl eq_refl)) as (pid & Hid & Ht).
  assert (Hpid : pid = JStr "P1") by (vm_compute in Hid; congruence).
  subst pid. split; [exact Hid | exact Ht].
Defined.

Lemma light_from_is_light st light a spa item :
  light_from st light a spa item ->
  exists zone, attr st light "zone" = Some (PJson zone) /\ is_light st light spa zone.
Proof.
  intros (p & z & c & i & m & -> & _ & _ & _ & _ & H). exists z.
  split; [unfold attr; rewrite H; reflexivity | do 5 eexists; exact H].
Qed.

(** X9.  When [get_lights] returns, it has made one call,
    [GET spas/{id}/lights], and returns one [SpaLight] per element of the
    response's [lights], in order, each built from its element and attached
    to this spa.  None of them can be driven: on each, [set] and [toggle]
    raise [AttributeError] and send nothing. *)
Theorem get_lights_builds_lights w st spa api id token lights st' :
  is_spa st spa api id -> logged_in st api token ->
  Spa.get_lights spa w st = (Ok lights, st') ->
  exists j records items,
    response_result
      (server w (trace st)
         (api_call "GET" ("spas/" ++ py_str w id ++ "/lights") token JNull)) = Ok j /\
    py_getitem (PJson j) "lights" = Ok records /\
    py_items records = Ok items /\
    trace st' =
      (trace st ++ [api_call "GET" ("spas/" ++ py_str w id ++ "/lights") token JNull])%list /\
    Forall2 (fun light item => light_from st' light (PRef api) spa item) lights items /\
    (forall light, In light lights ->
       (forall intensity mode,
          SpaLight.set light intensity mode w st' =
            (Raise (AttributeError "SpaLight" "LIGHT_MODES"), st')) /\
       SpaLight.toggle light w st' = (Raise (AttributeError "SpaLight" "id"), st')).
Proof.
  intros Hs Hl H. unfold Spa.get_lights in H.
  destruct (spa_collection w st spa api id token "lights" "lights"
              (fun light_info : json =>
                 _api <- getattr spa "_api" ;; Init.SpaLight _api (PRef spa) light_info)
              (fun st light item => light_from st light (PRef api) spa item) lights st' Hs Hl
              (fun st st' l item => light_from_extends st st' l _ spa item))
    as (j & records & items & Hj & Hr & Hi & Ht & He & Hall).
  - intros item st0 l st1 Hs0 Hf.
    erewrite bind_run in Hf by (eapply spa_api_attr; exact Hs0).
    apply init_light_inv in Hf. exact Hf.
  - exact H.
  - exists j, records, items.
    repeat (split; [assumption|]).
    intros light Hin.
    destruct (Forall2_In_left _ _ _ _ Hall Hin) as (item & Hfrom).
    destruct (light_from_is_light _ _ _ _ _ Hfrom) as (zone & _ & Hlight).
    split.
    + intros. eapply light_set_raises, Hlight.
    + eapply light_toggle_missing_id; [exact Hlight|].
      eapply is_spa_extends; eassumption.
Qed.

(** X9, run: the spa of the demo session. *)
Lemma get_lights_builds_lights_witness :
  exists lights st',
    Spa.get_lights the_spa demo_world demo_state = (Ok lights, st') /\
    lights = [5%nat] /\
    SpaLight.set 5%nat 50 "BLUE" demo_world st' =
      (Raise (AttributeError "SpaLight" "LIGHT_MODES"), st') /\
    SpaLight.toggle 5%nat demo_world st' = (Raise (AttributeError "SpaLight" "id"), st').
Proof.
  destruct (Spa.get_lights the_spa demo_world demo_state) as [r st'] eqn:Hrun.
  vm_compute in Hrun. injection Hrun as <- <-.
  eexists _, _. split; [reflexivity|]. split; [reflexivity|].
  match goal with
  | |- SpaLight.set _ _ _ _ ?s = _ /\ _ =>
      destruct (get_lights_builds_lights demo_world demo_state the_spa the_api (JStr "spa1")
                  "tok" [5%nat] s demo_is_spa demo_logged_in eq_refl)
        as (j & records & items & _ & _ & _ & _ & _ & Hdead)
  end.
  destruct (Hdead 5%nat (or_introl eq_refl)) as (Hset & Htoggle).
  split; [apply Hset | exact Htoggle].
Defined.



(** ** The account and its spas *)

Lemma init_account_inv _api j w st l st' :
  Init.Account _api j w st = (Ok l, st') ->
  extends st st' /\ trace st' = trace st /\ account_from st' l _api j.
Proof.
  unfold Init.Account. intros H. take_kwargs H.
  take_item H "id". take_item H "email".
  unfold new in H. injection H as <- <-.
  split; [eexists; reflexivity|]. split; [reflexivity|].
  do 3 eexists. repeat (split; [first [reflexivity | eassumption]|]).
  apply list_lookup_middle. reflexivity.
Qed.

(** X11.  When [get_account] returns, it has made one call,
    [GET accounts/{account_id}] with the account id [login] took from the
    token, and built one [Account] on this client from the response: its
    [id] and [email] are the response's, whatever the id in the token was. *)
Theorem get_account_builds_account w st api token account_id account st' :
  logged_in st api token -> attr st api "account_id" = Some account_id ->
  SmartTub.get_account api w st = (Ok account, st') ->
  exists record id,
    response_result
      (server w (trace st)
         (api_call "GET" ("accounts/" ++ py_str w account_id) token JNull)) = Ok record /\
    trace st' =
      (trace st ++ [api_call "GET" ("accounts/" ++ py_str w account_id) token JNull])%list /\
    extends st st' /\
    account_from st' account (PRef api) record /\
    py_getitem (PJson record) "id" = Ok id /\
    is_account st' account api id /\
    logged_in st' api token.
Proof.
  intros Hl Haid H. pose proof Hl as (o & Ho & Hcl & Hli & Ht & _).
  pose proof (is_client_const o "API_BASE" _ Hcl eq_refl) as Hb.
  unfold attr in Haid. rewrite Ho in Haid.
  unfold SmartTub.get_account, SmartTub._require_login, SmartTub._headers in H.
  erewrite bind_run in H
    by (erewrite bind_run
          by (eapply getattr_run; [exact Ho | unfold find_attr; rewrite Hli; reflexivity]);
        reflexivity).
  cbn beta iota in H.
  erewrite bind_run in H by (eapply getattr_run; [exact Ho | exact Hb]).
  cbn beta iota in H. unfold fmt at 1 in H. unfold bind at 1 in H. cbn beta iota in H.
  erewrite bind_run in H by (eapply getattr_run; [exact Ho | exact Haid]).
  cbn beta iota in H. unfold fmt at 1 in H. unfold bind at 1 in H. cbn beta iota in H.
  erewrite bind_run in H
    by (erewrite bind_run
          by (eapply getattr_run; [exact Ho | unfold find_attr; rewrite Ht; reflexivity]);
        reflexivity).
  cbn beta iota in H. unfold bind at 1, requests_request at 1 in H. cbn beta iota zeta in H.
  change {| req_method := "GET"; req_url := _; req_headers := _; req_json := JNull |}
    with (api_call "GET" ("accounts/" ++ py_str w account_id) token JNull) in H.
  set (rq := api_call "GET" ("accounts/" ++ py_str w account_id) token JNull) in *.
  erewrite bind_run in H by apply raise_for_status_run.
  unfold response_result.
  destruct ((400 <=? _) && _); [discriminate H|]. cbn beta iota in H.
  erewrite bind_run in H by apply response_json_run.
  destruct (resp_body _) as [record|]; [|discriminate H]. cbn beta iota in H.
  apply init_account_inv in H as (He & Htr & Hfrom).
  pose proof Hfrom as (p & i & e & -> & Hi & _ & Hobj).
  exists (JDict p), i.
  split; [reflexivity|]. split; [exact Htr|]. split; [exact He|]. split; [exact Hfrom|].
  split; [cbn; rewrite Hi; reflexivity|].
  split; [do 2 eexists; exact Hobj|].
  eapply logged_in_extends; [exact He|]. exact Hl.
Qed.

(** X11, run: the demo session after [login]. *)
Lemma get_account_builds_account_witness :
  SmartTub.get_account the_api demo_world logged_in_state = (Ok the_account, account_state) /\
  is_account account_state the_account the_api (JStr "acct1") /\
  trace account_state =
    (trace logged_in_state ++ [api_call "GET" "accounts/acct1" "tok" JNull])%list.
Proof.
  assert (Hrun : SmartTub.get_account the_api demo_world logged_in_state
                 = (Ok the_account, account_state)) by reflexivity.
  assert (Hl : logged_in logged_in_state the_api "tok")
    by (destruct demo_logged_in as (o & Ho & H); exists o; split; [exact Ho | exact H]).
  destruct (get_account_builds_account demo_world logged_in_state the_api "tok"
              (PJson (JStr "acct1")) the_account account_state Hl eq_refl Hrun)
    as (record & id & Hrec & Htr & _ & _ & Hid & Hacc & _).
  assert (E : id = JStr "acct1").
  { cbn in Hrec. injection Hrec as <-. cbn in Hid. injection Hid as <-. reflexivity. }
  subst id. split; [exact Hrun|]. split; [exact Hacc | exact Htr].
Defined.

Lemma kwargs_reserved positional d key w st :
  In key positional -> dict_get d key <> None ->
  kwargs positional (JDict d) w st = (Raise TypeError, st).
Proof.
  intros Hk Hd. unfold kwargs.
  assert (E : existsb (fun kv => existsb (String.eqb (fst kv)) positional) d = true).
  { destruct (dict_get d key) as [v|] eqn:Ev; [|contradiction].
    apply dict_get_In in Ev. apply in_map_iff in Ev as ([k v'] & Hfst & Hin).
    cbn in Hfst. subst k. apply existsb_exists. exists (key, v').
    split; [exact Hin|]. cbn. apply existsb_eqb_In, Hk. }
  rewrite E. reflexivity.
Qed.

(** X12.  [get_spa] adds a [Spa] only from a complete record.  It makes its
    one call; if the response is an error, or is not a JSON object
    ([TypeError]), or has a field named [self], [_api] or [account]
    ([TypeError]: the record is passed as keyword arguments), or lacks [id],
    [brand] or [model] ([KeyError]), it raises, and no object is added. *)
Theorem get_spa_needs_a_full_record w st acct api id token spa_id :
  is_account st acct api id -> logged_in st api token ->
  (forall e,
     response_result (server w (trace st) (spa_call w token spa_id)) = Raise e ->
     Account.get_spa acct spa_id w st = (Raise e, sent st (spa_call w token spa_id))) /\
  (forall j,
     response_result (server w (trace st) (spa_call w token spa_id)) = Ok j ->
     (forall d, j <> JDict d) ->
     Account.get_spa acct spa_id w st = (Raise TypeError, sent st (spa_call w token spa_id))) /\
  (forall d key,
     response_result (server w (trace st) (spa_call w token spa_id)) = Ok (JDict d) ->
     In key ["self"; "_api"; "account"] -> dict_get d key <> None ->
     Account.get_spa acct spa_id w st = (Raise TypeError, sent st (spa_call w token spa_id))) /\
  (forall d key,
     response_result (server w (trace st) (spa_call w token spa_id)) = Ok (JDict d) ->
     (forall k, In k ["self"; "_api"; "account"] -> dict_get d k = None) ->
     In key ["id"; "brand"; "model"] -> dict_get d key = None ->
     exists missing,
       In missing ["id"; "brand"; "model"] /\ dict_get d missing = None /\
       Account.get_spa acct spa_id w st =
         (Raise (KeyError missing), sent st (spa_call w token spa_id))) /\
  (forall e st',
     Account.get_spa acct spa_id w st = (Raise e, st') ->
     st' = sent st (spa_call w token spa_id)).
Proof.
  intros Ha Hl.
  assert (Hrun : Account.get_spa acct spa_id w st =
                 match response_result (server w (trace st) (spa_call w token spa_id)) with
                 | Ok j => Init.Spa (PRef api) (PRef acct) j w
                             (sent st (spa_call w token spa_id))
                 | Raise e => (Raise e, sent st (spa_call w token spa_id))
                 end).
  { erewrite account_get_spa_delegates by eauto.
    erewrite bind_run by (eapply request_sends; exact Hl). reflexivity. }
  assert (Hinit : forall j e st',
             Init.Spa (PRef api) (PRef acct) j w (sent st (spa_call w token spa_id))
             = (Raise e, st') -> st' = sent st (spa_call w token spa_id)).
  { intros j e st'. unfold Init.Spa, kwargs.
    destruct j as [| | | | | |d]; try (intros [= _ <-]; reflexivity).
    unfold bind at 1.
    destruct (existsb _ d); [intros [= _ <-]; reflexivity|]. unfold ret at 1.
    unfold getitem, lift, bind, new. cbn [py_getitem].
    destruct (dict_get d "id"); [|intros [= _ <-]; reflexivity].
    destruct (dict_get d "brand"); [|intros [= _ <-]; reflexivity].
    destruct (dict_get d "model"); [|intros [= _ <-]; reflexivity].
    discriminate. }
  split; [intros e He; rewrite Hrun, He; reflexivity|].
  split.
  { intros j Hj Hnd. rewrite Hrun, Hj. unfold Init.Spa, kwargs.
    destruct j as [| | | | | |d]; try reflexivity. exfalso. apply (Hnd d). reflexivity. }
  split.
  { intros d key Hj Hk Hd. rewrite Hrun, Hj. unfold Init.Spa.
    erewrite bind_run by (eapply kwargs_reserved; eassumption). reflexivity. }
  split.
  { intros d key Hj Hfree Hk Hd. rewrite Hrun, Hj. unfold Init.Spa, kwargs.
    assert (E : existsb (fun kv => existsb (String.eqb (fst kv)) ["self"; "_api"; "account"]) d
                = false).
    { destruct (existsb _ d) eqn:E; [|reflexivity].
      apply existsb_exists in E as ([k v] & Hin & Hex). cbn [fst] in Hex.
      apply existsb_eqb_In in Hex. specialize (Hfree k Hex).
      assert (Hsome : In k (map fst d)) by (apply in_map_iff; exists (k, v); auto).
      clear - Hfree Hsome. exfalso.
      induction d as [|[k' v'] d IH]; [contradiction|].
      cbn in Hfree. destruct (String.eqb_spec k' k); [discriminate Hfree|].
      destruct Hsome as [Hk|Hk]; [cbn in Hk; contradiction | auto]. }
    unfold bind at 1. rewrite E. unfold ret at 1.
    unfold getitem, lift, bind, new. cbn [py_getitem].
    destruct (dict_get d "id") eqn:Ei;
      [|exists "id"; split; [simpl; tauto | split; [exact Ei | reflexivity]]].
    destruct (dict_get d "brand") eqn:Eb;
      [|exists "brand"; split; [simpl; tauto | split; [exact Eb | reflexivity]]].
    destruct (dict_get d "model") eqn:Em;
      [|exists "model"; split; [simpl; tauto | split; [exact Em | reflexivity]]].
    exfalso. simpl in Hk. destruct Hk as [<-|[<-|[<-|[]]]]; congruence. }
  intros e st' H. rewrite Hrun in H.
  destruct (response_result _) as [j|e0]; [|injection H as _ <-; reflexivity].
  eapply Hinit, H.
Qed.

(** X12, run: the demo account, against an API whose record has a field
    named [account], and one whose record has no [model]. *)
Lemma get_spa_needs_a_full_record_witness :
  Account.get_spa the_account (PJson (JStr "spa1"))
      (world_answering 200
         (Some (JDict [ ("id", JStr "spa1"); ("brand", JStr "b"); ("model", JStr "m");
                        ("account", JStr "acct1") ]))) demo_state =
    (Raise TypeError, sent demo_state (api_call "GET" "spas/spa1" "tok" JNull)) /\
  exists missing,
    Account.get_spa the_account (PJson (JStr "spa1"))
        (world_answering 200 (Some (JDict [("id", JStr "spa1"); ("brand", JStr "b")])))
        demo_state =
      (Raise (KeyError missing), sent demo_state (api_call "GET" "spas/spa1" "tok" JNull)).
Proof.
  split.
  - destruct (get_spa_needs_a_full_record
                (world_answering 200
                   (Some (JDict [ ("id", JStr "spa1"); ("brand", JStr "b"); ("model", JStr "m");
                                  ("account", JStr "acct1") ])))
                demo_state the_account the_api (JStr "acct1") "tok" (PJson (JStr "spa1"))
                demo_is_account demo_logged_in) as (_ & _ & Hreserved & _).
    apply (Hreserved _ "account" eq_refl); [simpl; tauto | discriminate].
  - destruct (get_spa_needs_a_full_record
                (world_answering 200 (Some (JDict [("id", JStr "spa1"); ("brand", JStr "b")])))
                demo_state the_account the_api (JStr "acct1") "tok" (PJson (JStr "spa1"))
                demo_is_account demo_logged_in) as (_ & _ & _ & Hmissing & _).
    destruct (Hmissing _ "model" eq_refl) as (missing & _ & _ & Hrun).
    + intros k Hk. simpl in Hk. destruct Hk as [<-|[<-|[<-|[]]]]; reflexivity.
    + simpl. tauto.
    + reflexivity.
    + exists missing. exact Hrun.
Defined.

(** ** The other commands and reads of a spa *)

(** X13.  [set_secondary_filtration_mode] with a mode outside {FREQUENT,
    INFREQUENT, AWAY} raises [AssertionError] and makes no HTTP call, logged
    in or not; with a mode of the set, on a logged-in client, it makes one
    call, a PATCH to [spas/{id}/config] with body
    [{'secondaryFiltrationConfig': mode}]. *)
Theorem set_secondary_filtration_mode_checks_mode w st spa api id mode :
  is_spa st spa api id ->
  (~ In mode ["FREQUENT"; "INFREQUENT"; "AWAY"] ->
     Spa.set_secondary_filtration_mode spa mode w st = (Raise AssertionError, st)) /\
  (In mode ["FREQUENT"; "INFREQUENT"; "AWAY"] ->
     forall token, logged_in st api token ->
     Spa.set_secondary_filtration_mode spa mode w st =
       (discard
          (response_result
             (server w (trace st)
                (api_call "PATCH" ("spas/" ++ py_str w id ++ "/config") token
                   (JDict [("secondaryFiltrationConfig", JStr mode)])))),
        sent st
          (api_call "PATCH" ("spas/" ++ py_str w id ++ "/config") token
             (JDict [("secondaryFiltrationConfig", JStr mode)])))).
Proof.
  intros Hs. split.
  - intros Hn. unfold Spa.set_secondary_filtration_mode.
    erewrite spa_validate by (try eassumption; reflexivity).
    rewrite existsb_eqb_not_In by assumption. reflexivity.
  - intros Hin token Hl. unfold Spa.set_secondary_filtration_mode.
    erewrite spa_validate by (try eassumption; reflexivity).
    rewrite (proj2 (existsb_eqb_In _ _)) by assumption.
    apply discard_run. eapply spa_request_sends; eassumption.
Qed.

(** X13, run: the spa of the demo session. *)
Lemma set_secondary_filtration_mode_checks_mode_witness :
  Spa.set_secondary_filtration_mode the_spa "away" demo_world demo_state =
    (Raise AssertionError, demo_state) /\
  Spa.set_secondary_filtration_mode the_spa "AWAY" demo_world demo_state =
    (Ok tt,
     sent demo_state
       (api_call "PATCH" "spas/spa1/config" "tok"
          (JDict [("secondaryFiltrationConfig", JStr "AWAY")]))).
Proof.
  split.
  - apply (proj1 (set_secondary_filtration_mode_checks_mode demo_world demo_state the_spa
                    the_api (JStr "spa1") "away" demo_is_spa)).
    simpl. intros [H | [H | [H | H]]]; try discriminate H; exact H.
  - refine (eq_trans
              (proj2 (set_secondary_filtration_mode_checks_mode demo_world demo_state the_spa
                        the_api (JStr "spa1") "AWAY" demo_is_spa)
                 (or_intror (or_intror (or_introl eq_refl))) "tok" demo_logged_in) _).
    reflexivity.
Defined.

(** X14.  Two commands check nothing.  On a logged-in client,
    [set_temperature] sends whatever value it is given, a number or not, as
    [setTemperature] in a PATCH to [spas/{id}/config]; [toggle_clearray]
    POSTs to [spas/{id}/clearray/toggle] with no body, whatever its argument,
    which it does not use. *)
Theorem unchecked_commands_send w st spa api id token :
  is_spa st spa api id -> logged_in st api token ->
  (forall temp_c,
     Spa.set_temperature spa temp_c w st =
       (discard
          (response_result
             (server w (trace st)
                (api_call "PATCH" ("spas/" ++ py_str w id ++ "/config") token
                   (JDict [("setTemperature", temp_c)])))),
        sent st
          (api_call "PATCH" ("spas/" ++ py_str w id ++ "/config") token
             (JDict [("setTemperature", temp_c)])))) /\
  (forall str,
     Spa.toggle_clearray spa str w st =
       (discard
          (response_result
             (server w (trace st)
                (api_call "POST" ("spas/" ++ py_str w id ++ "/clearray/toggle") token JNull))),
        sent st (api_call "POST" ("spas/" ++ py_str w id ++ "/clearray/toggle") token JNull))).
Proof.
  intros Hs Hl. split; intros.
  - unfold Spa.set_temperature. apply discard_run. eapply spa_request_sends; eassumption.
  - unfold Spa.toggle_clearray. apply discard_run. eapply spa_request_sends; eassumption.
Qed.

(** X14, run: the spa of the demo session; a temperature that is a
    string is sent as it is. *)
Lemma unchecked_commands_send_witness :
  Spa.set_temperature the_spa (JStr "hot") demo_world demo_state =
    (Ok tt,
     sent demo_state
       (api_call "PATCH" "spas/spa1/config" "tok" (JDict [("setTemperature", JStr "hot")]))) /\
  Spa.toggle_clearray the_spa (PJson JNull) demo_world demo_state =
    (Ok tt, sent demo_state (api_call "POST" "spas/spa1/clearray/toggle" "tok" JNull)).
Proof.
  destruct (unchecked_commands_send demo_world demo_state the_spa the_api (JStr "spa1") "tok"
              demo_is_spa demo_logged_in) as (Htemp & Hclear).
  split.
  - refine (eq_trans (Htemp (JStr "hot")) _). reflexivity.
  - refine (eq_trans (Hclear (PJson JNull)) _). reflexivity.
Defined.

(** X15.  The three plain reads.  On a logged-in client each makes one GET
    under [spas/{id}/]: [get_status] to [status], returning the whole body;
    [get_errors] to [errors], returning the body's [content];
    [get_debug_status] to [debugStatus], returning the body's [debugStatus].
    A body without the entry raises [KeyError] (not being an object,
    [TypeError]) after the call. *)
Theorem plain_reads_return_the_entry w st spa api id token :
  is_spa st spa api id -> logged_in st api token ->
  Spa.get_status spa w st =
    (response_result
       (server w (trace st) (api_call "GET" ("spas/" ++ py_str w id ++ "/status") token JNull)),
     sent st (api_call "GET" ("spas/" ++ py_str w id ++ "/status") token JNull)) /\
  Spa.get_errors spa w st =
    (match response_result
             (server w (trace st)
                (api_call "GET" ("spas/" ++ py_str w id ++ "/errors") token JNull)) with
     | Ok j => py_getitem (PJson j) "content"
     | Raise e => Raise e
     end,
     sent st (api_call "GET" ("spas/" ++ py_str w id ++ "/errors") token JNull)) /\
  Spa.get_debug_status spa w st =
    (match response_result
             (server w (trace st)
                (api_call "GET" ("spas/" ++ py_str w id ++ "/debugStatus") token JNull)) with
     | Ok j => py_getitem (PJson j) "debugStatus"
     | Raise e => Raise e
     end,
     sent st (api_call "GET" ("spas/" ++ py_str w id ++ "/debugStatus") token JNull)).
Proof.
  intros Hs Hl. split; [|split].
  - unfold Spa.get_status. eapply spa_request_sends; eassumption.
  - unfold Spa.get_errors.
    erewrite bind_run by (eapply spa_request_sends; eassumption).
    change (py_str w (PJson (JStr "errors"))) with "errors".
    destruct (response_result _); reflexivity.
  - unfold Spa.get_debug_status.
    erewrite bind_run by (eapply spa_request_sends; eassumption).
    change (py_str w (PJson (JStr "debugStatus"))) with "debugStatus".
    destruct (response_result _); reflexivity.
Qed.

(** X15, run: the spa of the demo session; the demo API answers these
    with an empty object. *)
Lemma plain_reads_return_the_entry_witness :
  Spa.get_status the_spa demo_world demo_state =
    (Ok (JDict []), sent demo_state (api_call "GET" "spas/spa1/status" "tok" JNull)) /\
  Spa.get_errors the_spa demo_world demo_state =
    (Raise (KeyError "content"),
     sent demo_state (api_call "GET" "spas/spa1/errors" "tok" JNull)).
Proof.
  destruct (plain_reads_return_the_entry demo_world demo_state the_spa the_api (JStr "spa1")
              "tok" demo_is_spa demo_logged_in) as (Hstatus & Herrors & _).
  split.
  - refine (eq_trans Hstatus _). reflexivity.
  - refine (eq_trans Herrors _). reflexivity.
Defined.
